(** * qiniu.api.v7, package [client]: the HTTP caller

    A shallow embedding of [client/client.go].  Go values are modelled as
    follows.

    - [string] is a byte string: Rocq's [string]; [[]byte] is [list byte],
      and the conversion [string(b)] is [string_of_list_byte].
    - [int] and [int64] are [Z] (no arithmetic of the package can overflow:
      the only operation is [StatusCode/100]).
    - [http.Header], a [map[string][]string], is a [gmap string (list string)].
    - [error] is the inductive [error]; a [nil] error is [None].
    - a run-time panic is the outcome [Panics]; deferred calls still run.
    - a response body is a stream: the bytes not yet read, how the stream
      ends, and whether it was closed.
    - package-level state (the variable [UserAgent]) and the requests handed
      to the HTTP client are threaded through explicitly.
    - the URL of a request is the text it was parsed from; [url.RawQuery]
      and [url.fragment] give the parts [url.Parse] cuts it into.

    Pointers are taken to be valid: a response, its body and the header of
    a request are never nil (the HTTP client and [http.NewRequest] see to
    that), and neither are the HTTP client embedded in a [Client] and the
    context given to a request builder. What can go wrong on data is
    written out: [ct[0]] on an empty slice panics, with the text of Go's
    run-time error.

    What lives outside the package is a parameter: the JSON decoder (classes
    [Json], [Decoder] and [Marshaler]), [net/http] (class [Net]) and the
    build constants (class [Build]). The properties are proved for every
    instance; [model_Json], [model_Decoder], [model_Net] and [model_Build]
    are executable instances on which they are run. *)

From Stdlib Require Import ZArith Strings.String Strings.Ascii Lists.List Bool Lia Strings.Byte.
From stdpp Require Import base option gmap strings list sorting.

Import ListNotations.
Local Open Scope string_scope.
Local Open Scope Z_scope.
Local Open Scope list_scope.

(** ** Outcomes *)

(** A Go call either returns or panics. *)
Inductive outcome (A : Type) : Type :=
  | Returns (a : A)
  | Panics (msg : string).
Arguments Returns {A} a.
Arguments Panics {A} msg.

(** The run-time errors this package can raise, with the text Go's
    [runtime.Error] gives them: [ct[0]] on an empty [[]string], and the
    use of a nil pointer. *)
Definition index_out_of_range : string :=
  "runtime error: index out of range [0] with length 0".

Definition nil_dereference : string :=
  "runtime error: invalid memory address or nil pointer dereference".

(** ** Strings *)

(** [strings.HasPrefix(s, prefix)]. *)
Fixpoint HasPrefix (s prefix : string) : bool :=
  match prefix, s with
  | EmptyString, _ => true
  | String p prefix', String c s' => Ascii.eqb c p && HasPrefix s' prefix'
  | String _ _, EmptyString => false
  end.

(** [strings.ContainsRune(s, r)] for an ASCII rune [r]. *)
Fixpoint ContainsRune (s : string) (r : ascii) : bool :=
  match s with
  | EmptyString => false
  | String c s' => Ascii.eqb c r || ContainsRune s' r
  end.

(** [s != ""]. *)
Definition nonempty (s : string) : bool :=
  match s with EmptyString => false | String _ _ => true end.

(** ** net/textproto and net/http headers *)

Module textproto.

Definition is_lower (c : ascii) : bool :=
  (97 <=? nat_of_ascii c)%nat && (nat_of_ascii c <=? 122)%nat.
Definition is_upper (c : ascii) : bool :=
  (65 <=? nat_of_ascii c)%nat && (nat_of_ascii c <=? 90)%nat.
Definition is_digit (c : ascii) : bool :=
  (48 <=? nat_of_ascii c)%nat && (nat_of_ascii c <=? 57)%nat.

Definition to_upper (c : ascii) : ascii :=
  if is_lower c then ascii_of_nat (nat_of_ascii c - 32) else c.
Definition to_lower (c : ascii) : ascii :=
  if is_upper c then ascii_of_nat (nat_of_ascii c + 32) else c.

(** [validHeaderFieldByte]: the token characters of RFC 7230. *)
Definition validHeaderFieldByte (c : ascii) : bool :=
  is_lower c || is_upper c || is_digit c
  || existsb (Ascii.eqb c)
       (list_ascii_of_string "!#$%&'*+-.^_`|~").

Fixpoint all_valid (s : string) : bool :=
  match s with
  | EmptyString => true
  | String c s' => validHeaderFieldByte c && all_valid s'
  end.

Fixpoint canonical_from (upper : bool) (s : string) : string :=
  match s with
  | EmptyString => EmptyString
  | String c s' =>
      String (if upper then to_upper c else to_lower c)
             (canonical_from (Ascii.eqb c "-") s')
  end.

(** [CanonicalMIMEHeaderKey]: a key with a byte that is no token byte is
    returned as it is; otherwise the first letter and every letter after a
    hyphen are upper-cased and the others lower-cased. *)
Definition CanonicalMIMEHeaderKey (s : string) : string :=
  if all_valid s then canonical_from true s else s.

End textproto.

Module http.

(** [http.Header]. A nil header reads as the empty map. *)
Abbreviation Header := (gmap string (list string)).

(** [h.Get(key)]: the first value under the canonical key, or [""]. *)
Definition Get (h : Header) (key : string) : string :=
  match h !! textproto.CanonicalMIMEHeaderKey key with
  | Some (v :: _) => v
  | _ => ""
  end.

(** [h.Set(key, value)]. *)
Definition Set_ (h : Header) (key value : string) : Header :=
  <[textproto.CanonicalMIMEHeaderKey key := [value]]> h.

(** [h.Add(key, value)]: appends to the values under the canonical key. *)
Definition Add (h : Header) (key value : string) : Header :=
  let k := textproto.CanonicalMIMEHeaderKey key in
  <[k := (default [] (h !! k) ++ [value])%list]> h.

End http.

(** ** Errors *)

(** [ErrorInfo], with the fields in the order of the source. *)
Record ErrorInfo := {
  Err : string;
  Key : string;
  Reqid : string;
  Errno : Z;
  Code : Z
}.

(** A non-nil value of Go's [error] interface, as this package meets it. *)
Inductive error :=
  | Canceled                      (* context.Canceled *)
  | DeadlineExceeded              (* context.DeadlineExceeded *)
  | ErrInfo (e : ErrorInfo)       (* a pointer to an ErrorInfo *)
  | Foreign (msg : string).       (* an error of another package, by its message *)

(** The methods [Error], [RpcError] and [HttpCode] of [ErrorInfo]. *)
Definition Error (r : ErrorInfo) : string := Err r.
Definition RpcError (r : ErrorInfo) : Z * Z * string * string :=
  (Code r, Errno r, Key r, Err r).
Definition HttpCode (r : ErrorInfo) : Z := Code r.

(** ** Response bodies *)

(** An [io.ReadCloser] over a response body: the bytes not read yet, how the
    stream ends once they are read ([None] is [io.EOF], [Some msg] a read
    error), and whether [Close] was called. *)
Record ReadCloser := {
  unread : list byte;
  ending : option string;
  closed : bool
}.

Definition ErrBodyReadAfterClose : string := "http: read on closed response body".

(** What a reader gets from the stream from here on: the bytes, and the
    error that follows them ([None] for [io.EOF]). A closed body gives no
    byte. *)
Definition available (b : ReadCloser) : list byte * option string :=
  if closed b then ([], Some ErrBodyReadAfterClose) else (unread b, ending b).

(** The stream after a reader took [n] bytes of it. *)
Definition advance (n : nat) (b : ReadCloser) : ReadCloser :=
  if closed b then b
  else {| unread := skipn n (unread b); ending := ending b; closed := false |}.

(** [ioutil.ReadAll(r)]: every byte up to the end of the stream, and the
    read error if it did not end in [io.EOF]. *)
Definition ReadAll (b : ReadCloser) : list byte * option string * ReadCloser :=
  (available b, advance (length (unread b)) b).

(** [io.Copy(ioutil.Discard, r)], its results dropped as [CallRet] does. *)
Definition Discard (b : ReadCloser) : ReadCloser := snd (ReadAll b).

(** [r.Close()]. *)
Definition Close (b : ReadCloser) : ReadCloser :=
  {| unread := unread b; ending := ending b; closed := true |}.

(** ** Requests, responses, contexts *)

(** A request. [URL] is the text [http.NewRequest] was given: the request
    holds what [url.Parse] makes of it, whose query and fragment are read
    off the text with [url.RawQuery] and [url.fragment] below. A body is an
    in-memory reader ([strings.Reader], [bytes.Reader]), as the package's
    own callers pass, given by its content. *)
Record Request := {
  Method : string;
  URL : string;
  ReqHeader : http.Header;
  ReqBody : option (list byte);      (* nil, or the content of the reader *)
  ReqContentLength : Z
}.

Record Response := {
  StatusCode : Z;
  ContentLength : Z;
  Header : http.Header;
  Body : ReadCloser
}.

Definition with_Body (resp : Response) (b : ReadCloser) : Response :=
  {| StatusCode := StatusCode resp; ContentLength := ContentLength resp;
     Header := Header resp; Body := b |}.

(** When the context is done, as [Do] can observe it: at its check before
    the dispatch, or while the request is in flight. *)
Inductive done :=
  | Never
  | BeforeDispatch (e : error)
  | InFlight (e : error).

(** A [context.Context]: the values the package looks up in it, and its
    cancellation. [credentials] is what [auth.CredentialsFromContext]
    finds, as the [SignRequest] method of the credentials, which computes a
    token or fails; [reqid] is what [reqid.ReqidFromContext] finds. *)
Record Context := {
  credentials : option (Request -> string + error);
  reqid : option string;
  cancellation : done
}.

(** [context.Background()]. *)
Definition Background : Context :=
  {| credentials := None; reqid := None; cancellation := Never |}.

(** ** Collaborators *)

(** The struct [parseError] decodes an error body into. *)
Record errorBody := {
  body_Err : string;     (* `json:"error"` *)
  body_Key : string;     (* `json:"key"` *)
  body_Errno : Z         (* `json:"errno"` *)
}.

(** [encoding/json] for the error body: [json.Unmarshal(body, &ret)] on a
    zero [ret]; [None] when it returns an error. *)
Class Json := {
  Unmarshal : list byte -> option errorBody
}.

(** [encoding/json] for a destination of type [T]:
    [json.NewDecoder(r).Decode(ret)] as a function of what the stream holds
    (its bytes and how it ends) and of the destination's value: the number
    of bytes the decoder took from the stream, the error it returns, and the
    destination's value afterwards. *)
Class Decoder (T : Type) := {
  Decode : list byte -> option string -> T -> nat * option error * T
}.

(** The decoder run on a body: [json.NewDecoder(b).Decode(&v)]. *)
Definition DecodeBody {T} {DT : Decoder T} (b : ReadCloser) (v : T)
  : option error * T * ReadCloser :=
  let '(data, e) := available b in
  let '(n, err, v') := Decode data e v in
  (err, v', advance n b).

(** ** Reading responses *)

Section Responses.
Context {JS : Json}.

(** [parseError]: the [ErrorInfo] and the reader afterwards. *)
Definition parseError (e : ErrorInfo) (r : ReadCloser) : ErrorInfo * ReadCloser :=
  let '(body, err1, r') := ReadAll r in
  match err1 with
  | Some msg =>
      ({| Err := msg; Key := Key e; Reqid := Reqid e; Errno := Errno e; Code := Code e |}, r')
  | None =>
      match Unmarshal body with
      | Some ret =>
          if nonempty (body_Err ret) then
            (* qiniu error msg style returns here *)
            ({| Err := body_Err ret; Key := body_Key ret; Reqid := Reqid e;
                Errno := body_Errno ret; Code := Code e |}, r')
          else
            ({| Err := string_of_list_byte body; Key := Key e; Reqid := Reqid e;
                Errno := Errno e; Code := Code e |}, r')
      | None =>
          ({| Err := string_of_list_byte body; Key := Key e; Reqid := Reqid e;
              Errno := Errno e; Code := Code e |}, r')
      end
  end.

(** [ResponseError]: the error it returns (never nil), or the panic of
    [ct[0]] on a [Content-Type] entry without values; and the body
    afterwards. *)
Definition ResponseError (resp : Response) : outcome error * ReadCloser :=
  let e := {| Err := ""; Key := ""; Reqid := http.Get (Header resp) "X-Reqid";
              Errno := 0; Code := StatusCode resp |} in
  if 299 <? StatusCode resp then
    if negb (ContentLength resp =? 0) then
      match Header resp !! "Content-Type" with
      | Some [] => (Panics index_out_of_range, Body resp)
      | Some (ct0 :: _) =>
          if HasPrefix ct0 "application/json" then
            let '(e', b') := parseError e (Body resp) in (Returns (ErrInfo e'), b')
          else (Returns (ErrInfo e), Body resp)
      | None => (Returns (ErrInfo e), Body resp)
      end
    else (Returns (ErrInfo e), Body resp)
  else (Returns (ErrInfo e), Body resp).

(** [CallRet]. [ret] is [None] for a nil destination and [Some v] for a
    pointer to a variable holding [v]. The result is the returned error
    ([None] for nil) or the panic, the destination afterwards, and the body
    after the deferred function ran (it runs on every path, a panic
    included). *)
Definition CallRet {T} {DT : Decoder T} (ctx : option Context) (ret : option T)
    (resp : Response) : outcome (option error) * option T * ReadCloser :=
  let deferred (b : ReadCloser) := Close (Discard b) in
  let fail (ret' : option T) (resp' : Response) :=
    let '(r, b) := ResponseError resp' in
    (match r with Returns e => Returns (Some e) | Panics m => Panics m end,
     ret', deferred b) in
  if StatusCode resp ÷ 100 =? 2 then
    let '(err, ret', b1) :=
      match ret with
      | Some v =>
          if negb (ContentLength resp =? 0) then
            let '(err, v', b') := DecodeBody (Body resp) v in (err, Some v', b')
          else (None, ret, Body resp)
      | None => (None, ret, Body resp)
      end in
    match err with
    | Some e => (Returns (Some e), ret', deferred b1)
    | None =>
        if StatusCode resp =? 200 then (Returns None, ret', deferred b1)
        else fail ret' (with_Body resp b1)
    end
  else fail ret resp.

End Responses.

(** ** An executable model of [encoding/json]

    The grammar of RFC 8259 as Go's scanner accepts it, and the decoding of
    an object into the struct with the fields [error], [key] and [errno].
    The properties of the package are proved for every decoder (classes
    [Json] and [Decoder]); this model is what they are run on. *)

Module json.

Local Unset Elimination Schemes.
Inductive value :=
  | Null
  | Bool (b : bool)
  | Number (literal : string)
  | Str (s : string)
  | Array (elements : list value)
  | Object (members : list (string * value)).
Local Set Elimination Schemes.

(** The scanner's nesting limit. *)
Definition maxNestingDepth : nat := N.to_nat 10000.

Definition is_space (c : ascii) : bool :=
  existsb (Ascii.eqb c) [" "%char; "009"%char; "013"%char; "010"%char].

Fixpoint skip_space (s : string) : string :=
  match s with
  | String c s' => if is_space c then skip_space s' else s
  | EmptyString => s
  end.

(** *** String literals *)

(** A scanned piece of a string literal: a byte, or the UTF-16 code unit of
    a [\uXXXX] escape. *)
Inductive piece :=
  | Raw (c : ascii)
  | Unit16 (n : N).

Definition hex_digit (c : ascii) : option N :=
  let n := N_of_ascii c in
  if (48 <=? n)%N && (n <=? 57)%N then Some (n - 48)%N
  else if (97 <=? n)%N && (n <=? 102)%N then Some (n - 87)%N
  else if (65 <=? n)%N && (n <=? 70)%N then Some (n - 55)%N
  else None.

Definition hex4 (a b c d : ascii) : option N :=
  match hex_digit a, hex_digit b, hex_digit c, hex_digit d with
  | Some x, Some y, Some z, Some w => Some (((x * 16 + y) * 16 + z) * 16 + w)%N
  | _, _, _, _ => None
  end.

(** The byte an escape letter stands for. *)
Definition escape (c : ascii) : option ascii :=
  if Ascii.eqb c "034" then Some "034"%char
  else if Ascii.eqb c "\" then Some "\"%char
  else if Ascii.eqb c "/" then Some "/"%char
  else if Ascii.eqb c "b" then Some "008"%char
  else if Ascii.eqb c "f" then Some "012"%char
  else if Ascii.eqb c "n" then Some "010"%char
  else if Ascii.eqb c "r" then Some "013"%char
  else if Ascii.eqb c "t" then Some "009"%char
  else None.

(** Scans a string literal from after its opening quote to its closing
    quote: its pieces and the text that follows. *)
Fixpoint scan_string (s : string) : option (list piece * string) :=
  match s with
  | EmptyString => None
  | String c rest =>
      if Ascii.eqb c "034" then Some ([], rest)
      else if Ascii.eqb c "\" then
        match rest with
        | String "u" (String h1 (String h2 (String h3 (String h4 rest')))) =>
            match hex4 h1 h2 h3 h4, scan_string rest' with
            | Some n, Some (ps, r) => Some (Unit16 n :: ps, r)
            | _, _ => None
            end
        | String e rest' =>
            match escape e, scan_string rest' with
            | Some b, Some (ps, r) => Some (Raw b :: ps, r)
            | _, _ => None
            end
        | EmptyString => None
        end
      else if (N_of_ascii c <? 32)%N then None
      else
        match scan_string rest with
        | Some (ps, r) => Some (Raw c :: ps, r)
        | None => None
        end
  end.

(** [utf8.AppendRune] *)
Definition utf8 (n : N) : list ascii :=
  let cont (x : N) := ascii_of_N (128 + x mod 64) in
  if (n <? 128)%N then [ascii_of_N n]
  else if (n <? 2048)%N then [ascii_of_N (192 + n / 64); cont n]
  else if (n <? 65536)%N then [ascii_of_N (224 + n / 4096); cont (n / 64)%N; cont n]
  else [ascii_of_N (240 + n / 262144); cont (n / 4096)%N; cont (n / 64)%N; cont n].

Definition is_high (n : N) : bool := (55296 <=? n)%N && (n <? 56320)%N.
Definition is_low (n : N) : bool := (56320 <=? n)%N && (n <? 57344)%N.
Definition ReplacementChar : N := 65533.

(** [unquote]: escapes become bytes; a surrogate pair is one rune, a lone
    surrogate the replacement rune. Bytes of the literal are copied as they
    are (the literals of this development are valid UTF-8, which Go copies
    too). *)
Fixpoint unquote (ps : list piece) : list ascii :=
  match ps with
  | [] => []
  | Raw c :: ps' => c :: unquote ps'
  | Unit16 hi :: ps' =>
      if is_high hi then
        match ps' with
        | Unit16 lo :: ps'' =>
            if is_low lo
            then (utf8 (65536 + (hi - 55296) * 1024 + (lo - 56320))%N ++ unquote ps'')%list
            else (utf8 ReplacementChar ++ unquote ps')%list
        | _ => (utf8 ReplacementChar ++ unquote ps')%list
        end
      else if is_low hi then (utf8 ReplacementChar ++ unquote ps')%list
      else (utf8 hi ++ unquote ps')%list
  end.

(** *** Numbers *)

Definition is_digit (c : ascii) : bool :=
  (48 <=? N_of_ascii c)%N && (N_of_ascii c <=? 57)%N.

(** The longest run of digits at the head of [s], and the rest. *)
Fixpoint digits (s : string) : string * string :=
  match s with
  | String c s' =>
      if is_digit c then let '(d, r) := digits s' in (String c d, r)
      else (EmptyString, s)
  | EmptyString => (EmptyString, EmptyString)
  end.

(** The integer part: [0], or a digit from 1 to 9 and more digits. *)
Definition scan_int (s : string) : option (string * string) :=
  match s with
  | String "0" r => Some ("0"%string, r)
  | String c _ => if is_digit c then Some (digits s) else None
  | EmptyString => None
  end.

Definition scan_frac (s : string) : option (string * string) :=
  match s with
  | String "." r =>
      match digits r with
      | (EmptyString, _) => None
      | (d, r') => Some (String "." d, r')
      end
  | _ => Some (EmptyString, s)
  end.

Definition scan_exp (s : string) : option (string * string) :=
  match s with
  | String e r =>
      if Ascii.eqb e "e" || Ascii.eqb e "E" then
        let '(sign, r1) :=
          match r with
          | String c r1 =>
              if Ascii.eqb c "+" || Ascii.eqb c "-"
              then (String c EmptyString, r1) else (EmptyString, r)
          | EmptyString => (EmptyString, r)
          end in
        match digits r1 with
        | (EmptyString, _) => None
        | (d, r') => Some (String e (sign +:+ d), r')
        end
      else Some (EmptyString, s)
  | EmptyString => Some (EmptyString, s)
  end.

Definition scan_number (s : string) : option (string * string) :=
  let '(sign, s1) :=
    match s with
    | String "-" r => ("-"%string, r)
    | _ => (EmptyString, s)
    end in
  match scan_int s1 with
  | None => None
  | Some (i, s2) =>
      match scan_frac s2 with
      | None => None
      | Some (f, s3) =>
          match scan_exp s3 with
          | None => None
          | Some (e, s4) => Some (sign +:+ i +:+ f +:+ e, s4)
          end
      end
  end.

(** *** Values *)

(** [s] without [prefix], when it starts with it. *)
Fixpoint strip (prefix s : string) : option string :=
  match prefix, s with
  | EmptyString, _ => Some s
  | String p prefix', String c s' => if Ascii.eqb c p then strip prefix' s' else None
  | String _ _, EmptyString => None
  end.

(** One value at the head of [s], after white space; [depth] is how many
    more arrays and objects may be opened around it. The loops over the
    elements of an array and the members of an object run at most once for
    each character that is left. *)
Fixpoint scan_value (depth : nat) (s : string) {struct depth} : option (value * string) :=
  match skip_space s with
  | EmptyString => None
  | String c rest as s0 =>
      if Ascii.eqb c "034" then
        match scan_string rest with
        | Some (ps, r) => Some (Str (string_of_list_ascii (unquote ps)), r)
        | None => None
        end
      else if Ascii.eqb c "[" then
        match depth with
        | O => None
        | S d =>
            match skip_space rest with
            | String "]" r => Some (Array [], r)
            | _ =>
                (fix elements (k : nat) (s : string) (acc : list value) {struct k} :=
                   match k with
                   | O => None
                   | S k' =>
                       match scan_value d s with
                       | None => None
                       | Some (v, r) =>
                           match skip_space r with
                           | String "," r' => elements k' r' (v :: acc)
                           | String "]" r' => Some (Array (rev (v :: acc)), r')
                           | _ => None
                           end
                       end
                   end) (String.length rest) rest []
            end
        end
      else if Ascii.eqb c "{" then
        match depth with
        | O => None
        | S d =>
            match skip_space rest with
            | String "}" r => Some (Object [], r)
            | _ =>
                (fix members (k : nat) (s : string) (acc : list (string * value)) {struct k} :=
                   match k with
                   | O => None
                   | S k' =>
                       match skip_space s with
                       | String q s1 =>
                           if Ascii.eqb q "034" then
                             match scan_string s1 with
                             | None => None
                             | Some (ps, s2) =>
                                 match skip_space s2 with
                                 | String ":" s3 =>
                                     match scan_value d s3 with
                                     | None => None
                                     | Some (v, r) =>
                                         let m := (string_of_list_ascii (unquote ps), v) in
                                         match skip_space r with
                                         | String "," r' => members k' r' (m :: acc)
                                         | String "}" r' => Some (Object (rev (m :: acc)), r')
                                         | _ => None
                                         end
                                     end
                                 | _ => None
                                 end
                             end
                           else None
                       | EmptyString => None
                       end
                   end) (String.length rest) rest []
            end
        end
      else if Ascii.eqb c "t" then option_map (pair (Bool true)) (strip "true" s0)
      else if Ascii.eqb c "f" then option_map (pair (Bool false)) (strip "false" s0)
      else if Ascii.eqb c "n" then option_map (pair Null) (strip "null" s0)
      else
        match scan_number s0 with
        | Some (lit, r) => Some (Number lit, r)
        | None => None
        end
  end.

(** [checkValid] and the scan of [Unmarshal]: the whole input is one value
    between white space. *)
Definition scan_document (s : string) : option value :=
  match scan_value maxNestingDepth s with
  | Some (v, r) => match skip_space r with EmptyString => Some v | _ => None end
  | None => None
  end.

(** *** Decoding into the error struct *)

(** Field names match keys up to case: [foldName] maps every rune to the
    least rune of its fold set, which for a name in ASCII letters makes
    the Kelvin sign (E2 84 AA) a [k] and the long s (C5 BF) an [s]. *)
Fixpoint fold_name (s : string) : string :=
  match s with
  | String "226" (String "132" (String "170" r)) => String "k" (fold_name r)
  | String "197" (String "191" r) => String "s" (fold_name r)
  | String c r => String (textproto.to_lower c) (fold_name r)
  | EmptyString => EmptyString
  end.

Fixpoint decimal (s : string) (acc : Z) : option Z :=
  match s with
  | EmptyString => Some acc
  | String c r =>
      if is_digit c then decimal r (10 * acc + (Z.of_N (N_of_ascii c) - 48)) else None
  end.

(** [strconv.ParseInt(lit, 10, 64)] on a number literal of JSON. *)
Definition parse_int64 (lit : string) : option Z :=
  let r :=
    match lit with
    | String "-" (String c d) => option_map Z.opp (decimal (String c d) 0)
    | String c d => decimal (String c d) 0
    | EmptyString => None
    end in
  match r with
  | Some z => if (- 2 ^ 63 <=? z) && (z <? 2 ^ 63) then Some z else None
  | None => None
  end.

(** One member of the object stored into the struct; the flag turns false
    at a value of the wrong type (an [UnmarshalTypeError], after which Go
    goes on decoding and returns the error at the end). *)
Definition store_member (acc : errorBody * bool) (m : string * value) : errorBody * bool :=
  let '(r, ok) := acc in
  let name := fold_name (fst m) in
  if String.eqb name "error" then
    match snd m with
    | Str s => ({| body_Err := s; body_Key := body_Key r; body_Errno := body_Errno r |}, ok)
    | Null => acc
    | _ => (r, false)
    end
  else if String.eqb name "key" then
    match snd m with
    | Str s => ({| body_Err := body_Err r; body_Key := s; body_Errno := body_Errno r |}, ok)
    | Null => acc
    | _ => (r, false)
    end
  else if String.eqb name "errno" then
    match snd m with
    | Number lit =>
        match parse_int64 lit with
        | Some z => ({| body_Err := body_Err r; body_Key := body_Key r; body_Errno := z |}, ok)
        | None => (r, false)
        end
    | Null => acc
    | _ => (r, false)
    end
  else acc.

(** A value stored into the struct: [null] changes nothing, an object sets
    the fields it names (a later member wins), anything else is of the
    wrong type. *)
Definition store (r : errorBody) (v : value) : errorBody * bool :=
  match v with
  | Null => (r, true)
  | Object ms => fold_left store_member ms (r, true)
  | _ => (r, false)
  end.

Definition zero : errorBody := {| body_Err := ""; body_Key := ""; body_Errno := 0 |}.

(** [json.Unmarshal(data, &ret)] for a zero [ret] of the error struct. *)
Definition Unmarshal_errorBody (data : list byte) : option errorBody :=
  match scan_document (string_of_list_byte data) with
  | None => None
  | Some v => match store zero v with (r, true) => Some r | (_, false) => None end
  end.

Definition decode_error : error := Foreign "json: cannot decode the input".

(** [json.NewDecoder(r).Decode(&v)] for [v] of the shape of the error
    struct: the first value of the stream is stored into [v]. The decoder
    is charged with the bytes up to the end of that value (it may read
    ahead; [CallRet] discards what is left anyway), or with all of them
    when there is no value. *)
Definition Decode_errorBody (data : list byte) (ending : option string) (v : errorBody)
  : nat * option error * errorBody :=
  let s := string_of_list_byte data in
  match scan_value maxNestingDepth s with
  | Some (val, rest) =>
      let '(v', ok) := store v val in
      ((String.length s - String.length rest)%nat,
       if ok then None else Some decode_error, v')
  | None => (List.length data, Some decode_error, v)
  end.

(** Source text for JSON in this file: every apostrophe stands for a
    double quote. *)
Fixpoint text (s : string) : string :=
  match s with
  | String c r => String (if Ascii.eqb c "'" then "034"%char else c) (text r)
  | EmptyString => EmptyString
  end.

Definition bytes (s : string) : list byte := list_byte_of_string (text s).

End json.

(** The decoders the statements below are run on. *)
Definition model_Json : Json := {| Unmarshal := json.Unmarshal_errorBody |}.
Definition model_Decoder : Decoder errorBody := {| Decode := json.Decode_errorBody |}.

(** ** net/url *)

Module url.

Definition upperhex (n : N) : ascii :=
  if (n <? 10)%N then ascii_of_N (48 + n) else ascii_of_N (55 + n).

(** [shouldEscape(c, encodeQueryComponent)]: letters, digits and [-_.~]
    stay. *)
Definition shouldEscape (c : ascii) : bool :=
  negb (textproto.is_lower c || textproto.is_upper c || textproto.is_digit c
        || existsb (Ascii.eqb c) (list_ascii_of_string "-_.~")).

(** [url.QueryEscape]. *)
Fixpoint QueryEscape (s : string) : string :=
  match s with
  | EmptyString => EmptyString
  | String c r =>
      if Ascii.eqb c " " then String "+" (QueryEscape r)
      else if shouldEscape c then
        String "%" (String (upperhex (N_of_ascii c / 16))
                      (String (upperhex (N_of_ascii c mod 16)) (QueryEscape r)))
      else String c (QueryEscape r)
  end.

(** [url.Values]. *)
Abbreviation Values := (gmap string (list string)).

(** The loop of [Encode] over the values of one key; [buf] is the builder. *)
Definition encode_key (buf : string) (k : string) (vs : list string) : string :=
  let keyEscaped := QueryEscape k in
  fold_left
    (fun buf v =>
       (if nonempty buf then buf +:+ "&" else buf) +:+ keyEscaped +:+ "=" +:+ QueryEscape v)
    vs buf.

(** [v.Encode()]: the keys in sorted order. *)
Definition Encode (v : Values) : string :=
  fold_left (fun buf k => encode_key buf k (default [] (v !! k)))
            (merge_sort String.le (map fst (map_to_list v))) "".

(** *** The parts of a URL text

    [http.NewRequest] hands the URL text to [url.Parse], and the request
    keeps the parsed URL. [Parse] first cuts the text at its first [#]:
    what follows is the fragment, which is never sent to the server. The
    text before it is then cut at its first [?]: what follows is the
    [RawQuery] of the URL. *)

(** [strings.Cut(s, sep)] for a separator of one byte: the text before the
    first [sep] and the text after it; all of [s] and nothing where [s]
    has no [sep]. *)
Fixpoint Cut (s : string) (sep : ascii) : string * string :=
  match s with
  | EmptyString => (EmptyString, EmptyString)
  | String c r =>
      if Ascii.eqb c sep then (EmptyString, r)
      else let '(before, after) := Cut r sep in (String c before, after)
  end.

(** The [RawQuery] of the URL that [url.Parse] makes of [rawURL]. *)
Definition RawQuery (rawURL : string) : string :=
  snd (Cut (fst (Cut rawURL "#")) "?").

(** The fragment of that URL, as the text writes it. *)
Definition fragment (rawURL : string) : string :=
  snd (Cut rawURL "#").

End url.

(** ** Sending requests *)

(** [net/http] as the package calls it. *)
Class Net := {
  (** the error of [http.NewRequest(method, url, body)] for a method or a
      URL it refuses *)
  NewRequest_error : string -> string -> option error;
  (** [r.Client.Do(req)]: the response or the error, after the requests
      sent so far; the flag says that [CancelRequest(req)] is called while
      the request is in flight *)
  Client_Do : list Request -> Request -> bool -> Response + error
}.

(** The constants of packages [conf] and [runtime]. *)
Class Build := {
  conf_Version : string;
  runtime_GOOS : string;
  runtime_GOARCH : string;
  runtime_Version : string
}.

(** [json.Marshal] for a payload of type [P]. *)
Class Marshaler (P : Type) := {
  Marshal : P -> list byte + error
}.

(** A transport, or the object some [NestedObject] returns. Each may have
    the method [CancelRequest] (the flag); it has no method [NestedObject],
    or one that returns nil, or one that returns a further object. *)
Inductive object :=
  | Plain (canceler : bool)
  | NilInside (canceler : bool)
  | Wraps (canceler : bool) (inner : object).

(** The type assertion [p.(requestCanceler)]. *)
Definition canceler (o : object) : bool :=
  match o with Plain c | NilInside c | Wraps c _ => c end.

(** [http.DefaultTransport], a [*http.Transport]. *)
Definition DefaultTransport : object := Plain true.

(** The loop of [getRequestCanceler], from [p]. *)
Fixpoint unwrap (p : object) : option object :=
  match p with
  | Plain _ => None
  | NilInside _ => None
  | Wraps _ q => if canceler q then Some q else unwrap q
  end.

(** [getRequestCanceler]: the canceler, when [ok]. *)
Definition getRequestCanceler (tp : object) : option object :=
  if canceler tp then Some tp else unwrap tp.

(** [Client]: the transport of the embedded [*http.Client], [None] for a
    nil transport. The embedded pointer itself is not nil: [Do] reads
    [r.Transport] through it. *)
Record Client := {
  Transport : option object
}.

Definition DefaultClient : Client := {| Transport := Some DefaultTransport |}.

(** The state the package reads and writes: its variable [UserAgent], and
    the requests the HTTP client was called with, latest last. *)
Record World := {
  UserAgent : string;
  sent : list Request
}.

Definition initial : World :=
  {| UserAgent := "Golang qiniu/client package"; sent := [] |}.

Definition with_Header (req : Request) (h : http.Header) : Request :=
  {| Method := Method req; URL := URL req; ReqHeader := h;
     ReqBody := ReqBody req; ReqContentLength := ReqContentLength req |}.

Definition with_ContentLength (req : Request) (n : Z) : Request :=
  {| Method := Method req; URL := URL req; ReqHeader := ReqHeader req;
     ReqBody := ReqBody req; ReqContentLength := n |}.

Section Requests.
Context {NET : Net} {BLD : Build}.

(** [SetAppName]. *)
Definition SetAppName (userApp : string) (w : World) : option error * World :=
  (None,
   {| UserAgent := "QiniuGo/" +:+ conf_Version +:+ " (" +:+ runtime_GOOS +:+ "; "
                   +:+ runtime_GOARCH +:+ "; " +:+ userApp +:+ ") " +:+ runtime_Version;
      sent := sent w |}).

(** [newRequest]. [http.NewRequest] reads an empty method as GET, parses
    the URL text (the request keeps the text here, see [Request]) and takes
    the length of an in-memory body, which is what [SignRequest] sees. The
    context is not nil here: it goes to [auth.CredentialsFromContext]. *)
Definition newRequest (ctx : Context) (method reqUrl : string)
    (headers : option http.Header) (body : option (list byte)) : Request + error :=
  match NewRequest_error method reqUrl with
  | Some err => inr err
  | None =>
      let req :=
        {| Method := if nonempty method then method else "GET";
           URL := reqUrl;
           ReqHeader := default ∅ headers;
           ReqBody := body;
           ReqContentLength :=
             match body with Some b => Z.of_nat (length b) | None => 0 end |} in
      (* check access token *)
      match credentials ctx with
      | Some SignRequest =>
          match SignRequest req with
          | inl token =>
              inl (with_Header req (http.Add (ReqHeader req) "Authorization" ("QBox " +:+ token)))
          | inr signErr => inr signErr
          end
      | None => inl req
      end
  end.

(** [r.Client.Do(req)], recorded. *)
Definition roundTrip (req : Request) (cancel : bool) (w : World) : (Response + error) * World :=
  (Client_Do (sent w) req cancel, {| UserAgent := UserAgent w; sent := sent w ++ [req] |}).

(** [Do]. The two [select] statements read the context's cancellation: the
    first one before the dispatch, the second one while the request is in
    flight. *)
Definition Do (r : Client) (ctx : option Context) (req : Request) (w : World)
  : (option Response * option error) * World :=
  let ctx := default Background ctx in
  let req :=
    match reqid ctx with
    | Some reqId => with_Header req (http.Set_ (ReqHeader req) "X-Reqid" reqId)
    | None => req
    end in
  let req :=
    match ReqHeader req !! "User-Agent" with
    | None => with_Header req (http.Set_ (ReqHeader req) "User-Agent" (UserAgent w))
    | Some _ => req
    end in
  let transport := default DefaultTransport (Transport r) in (* don't change r.Transport *)
  (* avoid cancel() is called before Do(req), but isn't accurate *)
  match cancellation ctx with
  | BeforeDispatch e => ((None, Some e), w)
  | later =>
      let plain :=
        let '(res, w') := roundTrip req false w in
        (match res with inl resp => (Some resp, None) | inr e => (None, Some e) end, w') in
      match getRequestCanceler transport, later with
      | Some tr, InFlight e =>
          (* support CancelRequest *)
          let '(res, w') := roundTrip req true w in
          ((match res with inl resp => Some resp | inr _ => None end, Some e), w')
      | _, _ => plain
      end
  end.

(** [DoRequest]. *)
Definition DoRequest (r : Client) (ctx : Context) (method reqUrl : string)
    (headers : option http.Header) (w : World) : (option Response * option error) * World :=
  match newRequest ctx method reqUrl headers None with
  | inr err => ((None, Some err), w)
  | inl req => Do r (Some ctx) req w
  end.

(** [DoRequestWith] and [DoRequestWith64]: [int] and [int64] are both [Z]. *)
Definition DoRequestWith (r : Client) (ctx : Context) (method reqUrl : string)
    (headers : option http.Header) (body : option (list byte)) (bodyLength : Z)
    (w : World) : (option Response * option error) * World :=
  match newRequest ctx method reqUrl headers body with
  | inr err => ((None, Some err), w)
  | inl req => Do r (Some ctx) (with_ContentLength req bodyLength) w
  end.

Definition DoRequestWith64 := DoRequestWith.

(** [DoRequestWithForm]. *)
Definition DoRequestWithForm (r : Client) (ctx : Context) (method reqUrl : string)
    (headers : option http.Header) (data : url.Values) (w : World)
  : (option Response * option error) * World :=
  let headers := http.Add (default ∅ headers) "Content-Type" "application/x-www-form-urlencoded" in
  let requestData := url.Encode data in
  if String.eqb method "GET" || String.eqb method "HEAD" || String.eqb method "DELETE" then
    let reqUrl := if ContainsRune reqUrl "?" then reqUrl +:+ "&" else reqUrl +:+ "?" in
    DoRequest r ctx method (reqUrl +:+ requestData) (Some headers) w
  else
    DoRequestWith r ctx method reqUrl (Some headers)
      (Some (list_byte_of_string requestData)) (Z.of_nat (String.length requestData)) w.

(** [DoRequestWithJson]. *)
Definition DoRequestWithJson {P} {MP : Marshaler P} (r : Client) (ctx : Context)
    (method reqUrl : string) (headers : option http.Header) (data : P) (w : World)
  : (option Response * option error) * World :=
  match Marshal data with
  | inr err => ((None, Some err), w)
  | inl reqBody =>
      let headers := http.Add (default ∅ headers) "Content-Type" "application/json" in
      DoRequestWith r ctx method reqUrl (Some headers) (Some reqBody)
        (Z.of_nat (length reqBody)) w
  end.

End Requests.

(** ** Calls *)

Section Calls.
Context {NET : Net} {BLD : Build} {JS : Json} {T : Type} {DT : Decoder T}.

(** [CallWithForm]: the error, the destination afterwards, the world
    afterwards. A nil response with a nil error would be dereferenced. *)
Definition CallWithForm (r : Client) (ctx : Context) (ret : option T)
    (method reqUrl : string) (headers : option http.Header) (param : url.Values) (w : World)
  : outcome (option error) * option T * World :=
  match DoRequestWithForm r ctx method reqUrl headers param w with
  | ((_, Some err), w') => (Returns (Some err), ret, w')
  | ((Some resp, None), w') =>
      let '(res, ret', _) := CallRet (Some ctx) ret resp in (res, ret', w')
  | ((None, None), w') => (Panics nil_dereference, ret, w')
  end.

(** [CallWithJson]. *)
Definition CallWithJson {P} {MP : Marshaler P} (r : Client) (ctx : Context) (ret : option T)
    (method reqUrl : string) (headers : option http.Header) (param : P) (w : World)
  : outcome (option error) * option T * World :=
  match DoRequestWithJson r ctx method reqUrl headers param w with
  | ((_, Some err), w') => (Returns (Some err), ret, w')
  | ((Some resp, None), w') =>
      let '(res, ret', _) := CallRet (Some ctx) ret resp in (res, ret', w')
  | ((None, None), w') => (Panics nil_dereference, ret, w')
  end.

(** [CallWith] and [CallWith64]. *)
Definition CallWith (r : Client) (ctx : Context) (ret : option T)
    (method reqUrl : string) (headers : option http.Header) (body : option (list byte))
    (bodyLength : Z) (w : World)
  : outcome (option error) * option T * World :=
  match DoRequestWith r ctx method reqUrl headers body bodyLength w with
  | ((_, Some err), w') => (Returns (Some err), ret, w')
  | ((Some resp, None), w') =>
      let '(res, ret', _) := CallRet (Some ctx) ret resp in (res, ret', w')
  | ((None, None), w') => (Panics nil_dereference, ret, w')
  end.

Definition CallWith64 := CallWith.

(** [Call]. *)
Definition Call (r : Client) (ctx : Context) (ret : option T)
    (method reqUrl : string) (headers : option http.Header) (w : World)
  : outcome (option error) * option T * World :=
  match DoRequestWith r ctx method reqUrl headers None 0 w with
  | ((_, Some err), w') => (Returns (Some err), ret, w')
  | ((Some resp, None), w') =>
      let '(res, ret', _) := CallRet (Some ctx) ret resp in (res, ret', w')
  | ((None, None), w') => (Panics nil_dereference, ret, w')
  end.

End Calls.

(** ** Vocabulary of the statements *)

(** [b'] is [b] read to its end and closed: [b'] is closed, and no byte
    of a [b] that was open is left unread. *)
Definition released (b b' : ReadCloser) : Prop :=
  closed b' = true /\ (closed b = false -> unread b' = []).

(** The names [SetAppName] is meant for, after the comment above it
    ([userApp should be [A-Za-z0-9_\ \-\.]*]). *)
Definition valid_userApp (userApp : string) : bool :=
  forallb
    (fun c => textproto.is_lower c || textproto.is_upper c || textproto.is_digit c
              || existsb (Ascii.eqb c) (list_ascii_of_string "_ -."))
    (list_ascii_of_string userApp).

(** The methods whose form goes into the URL. *)
Definition in_query (method : string) : Prop :=
  method = "GET" \/ method = "HEAD" \/ method = "DELETE".

(** The [ErrorInfo] that [ResponseError] starts from. *)
Definition bare (resp : Response) : ErrorInfo :=
  {| Err := ""; Key := ""; Reqid := http.Get (Header resp) "X-Reqid";
     Errno := 0; Code := StatusCode resp |}.

(** ** Sample data *)

(** A response as the HTTP client hands it over: the body open and unread,
    [ContentLength] its length. *)
Definition response (status : Z) (header : http.Header) (body : list byte) : Response :=
  {| StatusCode := status;
     ContentLength := Z.of_nat (length body);
     Header := header;
     Body := {| unread := body; ending := None; closed := false |} |}.

Definition content_type (ct : string) : http.Header := {[ "Content-Type" := [ct] ]}.

(** The error body of the specification's example. *)
Definition bad_token : list byte :=
  json.bytes "{'error':'bad token','key':'k1','errno':612}".

Definition internal_failure : list byte := list_byte_of_string "internal failure".

(** An HTTP client to run the statements on: it refuses a method with a
    byte that is no token byte and a URL with a control character, and its
    server answers 200 with an empty body unless the request is cancelled. *)
Definition model_Net : Net :=
  {| NewRequest_error := fun method reqUrl =>
       if negb (textproto.all_valid method)
       then Some (Foreign "net/http: invalid method")
       else if existsb (fun c => (nat_of_ascii c <? 32)%nat || (nat_of_ascii c =? 127)%nat)
                       (list_ascii_of_string reqUrl)
       then Some (Foreign "net/url: invalid control character in URL")
       else None;
     Client_Do := fun _ req cancel =>
       if cancel then inr (Foreign "net/http: request canceled")
       else inl (response 200 ∅ []) |}.

Definition model_Build : Build :=
  {| conf_Version := "7.2.5"; runtime_GOOS := "linux"; runtime_GOARCH := "amd64";
     runtime_Version := "go1.12" |}.

(** Sample responses. *)
Definition created : Response :=
  response 201 (content_type "application/json") (json.bytes "{'key':'k1'}").

Definition stored : Response :=
  response 200 (content_type "application/json") (json.bytes "{'key':'k1'}").

Definition no_content : Response := response 204 {[ "X-Reqid" := ["r1"] ]} [].

Definition failure_text : Response :=
  response 500 (content_type "text/plain") internal_failure.

Definition failure_json_text : Response :=
  response 500 (content_type "application/json; charset=utf-8") internal_failure.

Definition unauthorized : Response :=
  response 401 (<["X-Reqid" := ["r1"]]> (content_type "application/json")) bad_token.

Definition switching : Response :=
  response 101 (content_type "application/json") bad_token.

(** Sample requests and contexts. *)
Definition get_request : Request :=
  {| Method := "GET"; URL := "http://x/y"; ReqHeader := ∅; ReqBody := None;
     ReqContentLength := 0 |}.

Definition cancelled : Context :=
  {| credentials := None; reqid := Some "r1"; cancellation := BeforeDispatch Canceled |}.

Definition form : url.Values := {[ "a" := ["1"] ]}.

(** ** Further vocabulary and sample data *)

(** The objects [getRequestCanceler] looks at, outermost first: the
    transport, what its [NestedObject] returns, and so on. *)
Fixpoint chain (p : object) : list object :=
  p :: match p with
       | Wraps _ q => chain q
       | Plain _ | NilInside _ => []
       end.

(** A 503 response whose body breaks off with a read error. *)
Definition broken : Response :=
  {| StatusCode := 503;
     ContentLength := 40;
     Header := content_type "application/json";
     Body := {| unread := json.bytes "{'error':'over"; ending := Some "unexpected EOF";
                closed := false |} |}.

(** An error body without the [error] field. *)
Definition key_only : Response :=
  response 404 (content_type "application/json") (json.bytes "{'key':'k1','errno':612}").

(** A 200 response whose body is no JSON. *)
Definition garbled : Response :=
  response 200 (content_type "application/json") (list_byte_of_string "<html>").

(** A 200 response without a body. *)
Definition empty_ok : Response := response 200 ∅ [].



(** [json.Marshal] of a [bool]. *)
Definition model_Marshaler : Marshaler bool :=
  {| Marshal := fun b : bool => inl (list_byte_of_string (if b then "true" else "false")) |}.

(** A payload that cannot be marshalled (a channel, say). *)
Definition failing_Marshaler : Marshaler unit :=
  {| Marshal := fun _ => inr (Foreign "json: unsupported type: chan int") |}.

(** Contexts: one with a request id, one cancelled in flight, one with
    credentials whose token is the method of the request, one whose
    credentials cannot sign. *)
Definition traced : Context :=
  {| credentials := None; reqid := Some "r1"; cancellation := Never |}.

Definition cancelled_in_flight : Context :=
  {| credentials := None; reqid := None; cancellation := InFlight Canceled |}.

Definition signed : Context :=
  {| credentials := Some (fun req => inl ("token-" +:+ Method req));
     reqid := None; cancellation := Never |}.

Definition unsigned : Context :=
  {| credentials := Some (fun _ => inr (Foreign "auth: cannot sign"));
     reqid := None; cancellation := BeforeDispatch Canceled |}.

(** Clients: one whose transport cannot cancel, one whose transport wraps
    one that cannot and then one that can. *)
Definition deaf_client : Client := {| Transport := Some (Plain false) |}.

Definition wrapped_client : Client :=
  {| Transport := Some (Wraps false (Wraps false (Plain true))) |}.

(** A request that carries headers of its own. *)
Definition browser_request : Request :=
  {| Method := "GET"; URL := "http://x/y";
     ReqHeader := {[ "User-Agent" := ["curl/8"]; "X-Reqid" := ["old"]; "Accept" := ["*/*"] ]};
     ReqBody := None; ReqContentLength := 0 |}.

(** A call that was turned down before the HTTP client was asked: it
    returns an error, the destination is as it was, and so is the world. *)
Definition turned_down {T} (ret : option T) (w : World)
    (res : outcome (option error) * option T * World) : Prop :=
  (exists err, fst (fst res) = Returns (Some err)) /\ snd (fst res) = ret /\ snd res = w.

(** The request [newRequest] builds before it signs. *)
Definition unsigned_request (method reqUrl : string) (headers : option http.Header)
    (body : option (list byte)) : Request :=
  {| Method := if nonempty method then method else "GET";
     URL := reqUrl;
     ReqHeader := default ∅ headers;
     ReqBody := body;
     ReqContentLength := match body with Some b => Z.of_nat (length b) | None => 0 end |}.

(** * Properties of [CallRet], [ResponseError] and [parseError] *)

Section ResponseProperties.
Context {JS : Json} {T : Type} {DT : Decoder T}.

Lemma status_2xx (s : Z) : (s ÷ 100 =? 2) = true <-> 200 <= s <= 299.
Proof.
  rewrite Z.eqb_eq. split; intros Hs.
  - destruct (Z.lt_ge_cases s 0) as [Hneg | Hpos].
    + pose proof (Z.quot_opp_l s 100 ltac:(lia)) as Ho.
      assert (0 <= - s ÷ 100) by (apply Z.quot_pos; lia). lia.
    + rewrite Z.quot_div_nonneg in Hs by lia.
      pose proof (Z.div_mod s 100 ltac:(lia)).
      pose proof (Z.mod_pos_bound s 100 ltac:(lia)). lia.
  - rewrite Z.quot_div_nonneg by lia.
    symmetry. apply (Z.div_unique s 100 2 (s - 200)); lia.
Qed.

Lemma status_not_2xx (s : Z) : (s ÷ 100 =? 2) = false <-> ~ (200 <= s <= 299).
Proof. rewrite <- status_2xx. destruct (s ÷ 100 =? 2); intuition congruence. Qed.

(** Discarding what is left gives the same stream wherever a reader got to. *)
Lemma Discard_advance (n : nat) (b : ReadCloser) : Discard (advance n b) = Discard b.
Proof.
  unfold Discard, ReadAll, advance; simpl. destruct (closed b) eqn:Hc; simpl.
  - rewrite Hc. reflexivity.
  - rewrite !skipn_all. reflexivity.
Qed.

Lemma Discard_closed (b : ReadCloser) : closed (Close (Discard b)) = true.
Proof. reflexivity. Qed.

Lemma Discard_unread (b : ReadCloser) :
  closed b = false -> unread (Close (Discard b)) = [].
Proof.
  intros Hc. unfold Discard, ReadAll, advance; simpl. rewrite Hc; simpl.
  apply skipn_all.
Qed.

(** [parseError] and [ResponseError] leave a body that drains to the same
    stream as the one they got. *)
Lemma parseError_Discard (e : ErrorInfo) (r : ReadCloser) :
  Discard (snd (parseError e r)) = Discard r.
Proof.
  unfold parseError, ReadAll.
  destruct (available r) as [body [msg|]]; simpl; [apply Discard_advance|].
  destruct (Unmarshal body) as [ret|]; [destruct (nonempty (body_Err ret))|];
    apply Discard_advance.
Qed.

Lemma ResponseError_Discard (resp : Response) :
  Discard (snd (ResponseError resp)) = Discard (Body resp).
Proof.
  unfold ResponseError.
  repeat match goal with
         | |- context [if ?c then _ else _] => destruct c
         | |- context [match ?o with Some _ => _ | None => _ end] => destruct o
         | |- context [match ?l with [] => _ | _ :: _ => _ end] => destruct l
         end; simpl; try reflexivity.
  pose proof (parseError_Discard
    {| Err := ""; Key := ""; Reqid := http.Get (Header resp) "X-Reqid";
       Errno := 0; Code := StatusCode resp |} (Body resp)) as Hp.
  destruct (parseError _ (Body resp)) as [e' b']. exact Hp.
Qed.

(** Up to status 299 [ResponseError] reads nothing. *)
Lemma ResponseError_le_299 (resp : Response) :
  StatusCode resp <= 299 ->
  ResponseError resp =
    (Returns (ErrInfo {| Err := ""; Key := ""; Reqid := http.Get (Header resp) "X-Reqid";
                         Errno := 0; Code := StatusCode resp |}), Body resp).
Proof.
  intros Hs. unfold ResponseError.
  destruct (299 <? StatusCode resp) eqn:Hlt; [apply Z.ltb_lt in Hlt; lia | reflexivity].
Qed.

Lemma released_Discard (b : ReadCloser) : released b (Close (Discard b)).
Proof. split; [apply Discard_closed | apply Discard_unread]. Qed.


(** Where [ResponseError] reads the body: [parseError] runs on it. *)
Lemma ResponseError_parses (resp : Response) (ct : string) (cts : list string) :
  299 < StatusCode resp -> ContentLength resp <> 0 ->
  Header resp !! "Content-Type" = Some (ct :: cts) ->
  HasPrefix ct "application/json" = true ->
  fst (ResponseError resp) = Returns (ErrInfo (fst (parseError (bare resp) (Body resp)))).
Proof.
  intros Hs Hl Hct Hp. unfold ResponseError. fold (bare resp).
  apply Z.ltb_lt in Hs. apply Z.eqb_neq in Hl. rewrite Hs, Hl, Hct, Hp. simpl.
  destruct (parseError (bare resp) (Body resp)). reflexivity.
Qed.


(** Outside [200,299] [CallRet] is [ResponseError] and the deferred calls. *)
Lemma CallRet_not_2xx (ctx : option Context) (ret : option T) (resp : Response) :
  ~ (200 <= StatusCode resp <= 299) ->
  CallRet ctx ret resp =
    (match fst (ResponseError resp) with
     | Returns e => Returns (Some e)
     | Panics m => Panics m
     end, ret, Close (Discard (snd (ResponseError resp)))).
Proof.
  intros Hs. apply status_not_2xx in Hs. unfold CallRet. rewrite Hs.
  destruct (ResponseError resp). reflexivity.
Qed.

Lemma DecodeBody_advance (b b1 : ReadCloser) (v v' : T) (err : option error) :
  DecodeBody b v = (err, v', b1) -> exists n, b1 = advance n b.
Proof.
  unfold DecodeBody. destruct (available b) as [data e].
  destruct (Decode data e v) as [[n err0] v0]. intros [= _ _ <-]. by exists n.
Qed.

(** C1 (as amended). For a status from 201 to 299 and a nil destination or
    a [ContentLength] of zero, [CallRet] decodes nothing and returns an
    error: the [ErrorInfo] with the status as [Code], the [X-Reqid] header
    as [Reqid], and [Err], [Key] and [Errno] left at their zero values. The
    destination is as it was. *)
Theorem CallRet_2xx_without_payload (ctx : option Context) (ret : option T) (resp : Response) :
  201 <= StatusCode resp <= 299 ->
  ret = None \/ ContentLength resp = 0 ->
  CallRet ctx ret resp =
    (Returns (Some (ErrInfo (bare resp))), ret, Close (Discard (Body resp))).
Proof.
  intros Hs Hnone. unfold CallRet.
  assert (H2 : (StatusCode resp ÷ 100 =? 2) = true) by (apply status_2xx; lia).
  assert (H200 : (StatusCode resp =? 200) = false) by (apply Z.eqb_neq; lia).
  rewrite H2.
  assert (Hskip :
    match ret with
    | Some v =>
        if negb (ContentLength resp =? 0)
        then let '(err, v', b') := DecodeBody (Body resp) v in (err, Some v', b')
        else (None, ret, Body resp)
    | None => (None, ret, Body resp)
    end = (None, ret, Body resp)).
  { destruct Hnone as [-> | ->]; [reflexivity|]. by destruct ret. }
  rewrite Hskip, H200. rewrite ResponseError_le_299 by (simpl; lia).
  destruct resp; reflexivity.
Qed.

(** C2 (as amended). For a status from 200 to 299, a destination that is
    not nil and a [ContentLength] that is not zero, when the decoder
    returns no error on the body, the destination holds what the decoder
    wrote and the body is read to its end and closed. [CallRet] returns no
    error at status 200; at any other status of the range it returns the
    [ErrorInfo] with that status as [Code]. *)
Theorem CallRet_decodes (ctx : option Context) (v v' : T) (b1 : ReadCloser) (resp : Response) :
  200 <= StatusCode resp <= 299 ->
  ContentLength resp <> 0 ->
  DecodeBody (Body resp) v = (None, v', b1) ->
  CallRet ctx (Some v) resp =
    (if StatusCode resp =? 200 then Returns None else Returns (Some (ErrInfo (bare resp))),
     Some v', Close (Discard (Body resp)))
  /\ released (Body resp) (Close (Discard (Body resp))).
Proof.
  intros Hs Hl Hdec. split; [|apply released_Discard]. unfold CallRet.
  assert (H2 : (StatusCode resp ÷ 100 =? 2) = true) by (apply status_2xx; lia).
  apply Z.eqb_neq in Hl. rewrite H2, Hl, Hdec. simpl.
  destruct (DecodeBody_advance _ _ _ _ _ Hdec) as [n ->].
  destruct (StatusCode resp =? 200) eqn:H200.
  - by rewrite Discard_advance.
  - rewrite ResponseError_le_299 by (simpl; lia). simpl. by rewrite Discard_advance.
Qed.


(** C4 (as amended). For a status above 299, a [ContentLength] that is
    not zero and a [Content-Type] whose first value begins with
    [application/json], when the body is the text [internal failure] and
    that is no JSON, the [ErrorInfo] has this text as [Err]. *)
Theorem CallRet_text_error (ctx : option Context) (ret : option T) (resp : Response)
    (ct : string) (cts : list string) :
  299 < StatusCode resp ->
  ContentLength resp <> 0 ->
  Header resp !! "Content-Type" = Some (ct :: cts) ->
  HasPrefix ct "application/json" = true ->
  available (Body resp) = (internal_failure, None) ->
  Unmarshal internal_failure = None ->
  exists e, fst (fst (CallRet ctx ret resp)) = Returns (Some (ErrInfo e))
            /\ Err e = "internal failure".
Proof.
  intros Hs Hl Hct Hp Hbody Hjson.
  rewrite CallRet_not_2xx by lia. simpl.
  rewrite (ResponseError_parses resp ct cts Hs Hl Hct Hp).
  eexists; split; [reflexivity|].
  unfold parseError, ReadAll. rewrite Hbody, Hjson. reflexivity.
Qed.

(** C5 (as amended). For a status above 299, a [ContentLength] that is
    not zero and a [Content-Type] whose first value begins with
    [application/json], with [body] what the response body holds: when
    [body] decodes into the fields [error], [key] and [errno] and [error]
    is not empty, the [ErrorInfo] has them as [Err], [Key] and [Errno];
    when it does not decode or [error] is empty, [Err] is [body] as text. *)
Theorem CallRet_json_error (ctx : option Context) (ret : option T) (resp : Response)
    (ct : string) (cts : list string) (body : list byte) :
  299 < StatusCode resp ->
  ContentLength resp <> 0 ->
  Header resp !! "Content-Type" = Some (ct :: cts) ->
  HasPrefix ct "application/json" = true ->
  available (Body resp) = (body, None) ->
  exists e, fst (fst (CallRet ctx ret resp)) = Returns (Some (ErrInfo e))
    /\ (forall r, Unmarshal body = Some r -> body_Err r <> "" ->
          Err e = body_Err r /\ Key e = body_Key r /\ Errno e = body_Errno r)
    /\ (Unmarshal body = None \/ (exists r, Unmarshal body = Some r /\ body_Err r = "") ->
          Err e = string_of_list_byte body).
Proof.
  intros Hs Hl Hct Hp Hbody.
  rewrite CallRet_not_2xx by lia. simpl.
  rewrite (ResponseError_parses resp ct cts Hs Hl Hct Hp).
  eexists; split; [reflexivity|].
  unfold parseError, ReadAll. rewrite Hbody.
  destruct (Unmarshal body) as [r|] eqn:Hu.
  - destruct (body_Err r) as [|c s'] eqn:He; simpl.
    + split; [intros r' [= <-] Hne; congruence | reflexivity].
    + split.
      * intros r' [= <-] _. rewrite He. auto.
      * intros [Hn | (r' & [= <-] & He')]; congruence.
  - simpl. split; [intros r' Hr'; discriminate | reflexivity].
Qed.

(** C8. On every path of [CallRet] (no error, an error of the decoder, an
    [ErrorInfo], a panic) the body is read to its end and closed when the
    call is over: it is the body it got, discarded and closed. *)
Theorem CallRet_releases_body (ctx : option Context) (ret : option T) (resp : Response) :
  snd (CallRet ctx ret resp) = Close (Discard (Body resp))
  /\ released (Body resp) (snd (CallRet ctx ret resp)).
Proof.
  assert (Heq : snd (CallRet ctx ret resp) = Close (Discard (Body resp))).
  { unfold CallRet.
    destruct (StatusCode resp ÷ 100 =? 2).
    - assert (Hdec : exists err ret' n,
        match ret with
        | Some v =>
            if negb (ContentLength resp =? 0)
            then let '(err, v', b') := DecodeBody (Body resp) v in (err, Some v', b')
            else (None, ret, Body resp)
        | None => (None, ret, Body resp)
        end = (err, ret', advance n (Body resp))
        \/ match ret with
           | Some v =>
               if negb (ContentLength resp =? 0)
               then let '(err, v', b') := DecodeBody (Body resp) v in (err, Some v', b')
               else (None, ret, Body resp)
           | None => (None, ret, Body resp)
           end = (err, ret', Body resp)).
      { destruct ret as [v|]; [|exists None, None, 0%nat; by right].
        destruct (negb (ContentLength resp =? 0)); [|exists None, (Some v), 0%nat; by right].
        destruct (DecodeBody (Body resp) v) as [[err v'] b'] eqn:Hd.
        destruct (DecodeBody_advance _ _ _ _ _ Hd) as [n ->].
        exists err, (Some v'), n. by left. }
      destruct Hdec as (err & ret' & n & [-> | ->]).
      + destruct err as [e|]; simpl; [by rewrite Discard_advance|].
        destruct (StatusCode resp =? 200); simpl; [by rewrite Discard_advance|].
        pose proof (ResponseError_Discard (with_Body resp (advance n (Body resp)))) as Hr.
        destruct (ResponseError (with_Body resp (advance n (Body resp)))) as [r b].
        simpl in *. by rewrite Hr, Discard_advance.
      + destruct err as [e|]; simpl; [done|].
        destruct (StatusCode resp =? 200); simpl; [done|].
        pose proof (ResponseError_Discard (with_Body resp (Body resp))) as Hr.
        destruct (ResponseError (with_Body resp (Body resp))) as [r b].
        simpl in *. by rewrite Hr.
    - pose proof (ResponseError_Discard resp) as Hr.
      destruct (ResponseError resp) as [r b]. simpl in *. by rewrite Hr. }
  split; [exact Heq|]. rewrite Heq. apply released_Discard.
Qed.

(** C10. For a status from 201 to 299, a destination that is not nil and
    a [ContentLength] that is not zero, when the decoder returns no error
    on the body, [CallRet] leaves what the decoder wrote in the
    destination and returns an error all the same: the [ErrorInfo] with
    empty [Err] and [Key], [Errno] zero and the status as [Code]. *)
Theorem CallRet_populates_then_fails (ctx : option Context) (v v' : T) (b1 : ReadCloser)
    (resp : Response) :
  201 <= StatusCode resp <= 299 ->
  ContentLength resp <> 0 ->
  DecodeBody (Body resp) v = (None, v', b1) ->
  exists e,
    CallRet ctx (Some v) resp = (Returns (Some (ErrInfo e)), Some v', Close (Discard (Body resp)))
    /\ Err e = "" /\ Key e = "" /\ Errno e = 0 /\ Code e = StatusCode resp.
Proof.
  intros Hs Hl Hdec. exists (bare resp). split; [|by simpl].
  unfold CallRet.
  assert (H2 : (StatusCode resp ÷ 100 =? 2) = true) by (apply status_2xx; lia).
  assert (H200 : (StatusCode resp =? 200) = false) by (apply Z.eqb_neq; lia).
  apply Z.eqb_neq in Hl. rewrite H2, Hl, Hdec. simpl. rewrite H200.
  destruct (DecodeBody_advance _ _ _ _ _ Hdec) as [n ->].
  rewrite ResponseError_le_299 by (simpl; lia). simpl.
  by rewrite Discard_advance.
Qed.

End ResponseProperties.

(** ** The text of a URL *)

Section UrlText.

Lemma append_cons (c : ascii) (s t : string) : String c s +:+ t = String c (s +:+ t).
Proof. reflexivity. Qed.

Lemma append_assoc (s t u : string) : (s +:+ t) +:+ u = s +:+ (t +:+ u).
Proof.
  induction s as [|c s IH]; [reflexivity|]. rewrite !append_cons. by rewrite IH.
Qed.

Lemma ContainsRune_app (s t : string) (c : ascii) :
  ContainsRune (s +:+ t) c = ContainsRune s c || ContainsRune t c.
Proof.
  induction s as [|a s IH]; [reflexivity|].
  rewrite append_cons. simpl. rewrite IH. by rewrite orb_assoc.
Qed.

(** A text without the separator is not cut. *)
Lemma Cut_without (s : string) (c : ascii) :
  ContainsRune s c = false -> url.Cut s c = (s, "").
Proof.
  induction s as [|a s IH]; [reflexivity|]. simpl.
  intros [Ha Hs]%orb_false_iff. by rewrite Ha, (IH Hs).
Qed.

(** What is appended to a text with the separator in it comes after the
    cut. *)
Lemma Cut_app_with (s t : string) (c : ascii) :
  ContainsRune s c = true ->
  url.Cut (s +:+ t) c = (fst (url.Cut s c), snd (url.Cut s c) +:+ t).
Proof.
  induction s as [|a s IH]; [discriminate|]. rewrite append_cons. simpl.
  destruct (Ascii.eqb a c); [reflexivity|]. simpl. intros Hs. rewrite (IH Hs).
  by destruct (url.Cut s c).
Qed.

(** A separator appended to a text without one is where the cut falls. *)
Lemma Cut_app_sep (s t : string) (c : ascii) :
  ContainsRune s c = false -> url.Cut (s +:+ String c t) c = (s, t).
Proof.
  induction s as [|a s IH].
  - intros _. change ("" +:+ String c t) with (String c t). simpl.
    by rewrite Ascii.eqb_refl.
  - intros [Ha Hs]%orb_false_iff. rewrite append_cons. simpl.
    by rewrite Ha, (IH Hs).
Qed.

(** [QueryEscape] escapes the [#]. *)
Lemma QueryEscape_no_fragment (s : string) : ContainsRune (url.QueryEscape s) "#" = false.
Proof.
  induction s as [|c s IH]; [reflexivity|].
  destruct c as [[] [] [] [] [] [] [] []]; exact IH.
Qed.

Lemma encode_key_no_fragment (vs : list string) (buf k : string) :
  ContainsRune buf "#" = false -> ContainsRune (url.encode_key buf k vs) "#" = false.
Proof.
  unfold url.encode_key. revert buf.
  induction vs as [|v vs IH]; intros buf Hbuf; [exact Hbuf|]. simpl. apply IH.
  rewrite !ContainsRune_app, !QueryEscape_no_fragment.
  destruct (nonempty buf); rewrite ?ContainsRune_app, Hbuf; reflexivity.
Qed.

(** An encoded form has no [#] in it. *)
Lemma Encode_no_fragment (v : url.Values) : ContainsRune (url.Encode v) "#" = false.
Proof.
  unfold url.Encode. generalize (merge_sort String.le (map fst (map_to_list v))).
  assert (Hfold : forall (ks : list string) (buf : string),
            ContainsRune buf "#" = false ->
            ContainsRune
              (fold_left (fun buf k => url.encode_key buf k (default [] (v !! k))) ks buf) "#"
            = false).
  { induction ks as [|k ks IH]; intros buf Hbuf; [exact Hbuf|]. simpl.
    apply IH. by apply encode_key_no_fragment. }
  intros ks. by apply Hfold.
Qed.

(** The text that [DoRequestWithForm] makes of a URL without a fragment
    and an encoded form: the form is the end of its query. *)
Lemma form_in_RawQuery (reqUrl enc : string) :
  ContainsRune reqUrl "#" = false ->
  ContainsRune enc "#" = false ->
  url.fragment ((reqUrl +:+ (if ContainsRune reqUrl "?" then "&" else "?")) +:+ enc) = ""
  /\ url.RawQuery ((reqUrl +:+ (if ContainsRune reqUrl "?" then "&" else "?")) +:+ enc) =
       if ContainsRune reqUrl "?" then url.RawQuery reqUrl +:+ "&" +:+ enc else enc.
Proof.
  intros Hurl Henc. unfold url.fragment, url.RawQuery.
  assert (Hall : ContainsRune
                   ((reqUrl +:+ (if ContainsRune reqUrl "?" then "&" else "?")) +:+ enc) "#"
                 = false).
  { rewrite !ContainsRune_app, Hurl, Henc. by destruct (ContainsRune reqUrl "?"). }
  rewrite (Cut_without _ _ Hall), (Cut_without _ _ Hurl). simpl. split; [reflexivity|].
  destruct (ContainsRune reqUrl "?") eqn:Hq.
  - rewrite append_assoc, (Cut_app_with _ _ _ Hq). reflexivity.
  - rewrite append_assoc. change ("?" +:+ enc) with (String "?" enc).
    by rewrite (Cut_app_sep _ _ _ Hq).
Qed.

End UrlText.

(** * Properties of [Do] and of the request builders *)

Section RequestProperties.
Context {NET : Net} {BLD : Build}.

Lemma snoc_inv {A} (l : list A) (x y : A) : l ++ [x] = l ++ [y] -> x = y.
Proof. intros Hl. apply app_inv_head in Hl. congruence. Qed.

Lemma not_snoc {A} (l : list A) (x : A) : l <> l ++ [x].
Proof.
  intros Hl. apply (f_equal length) in Hl. rewrite length_app in Hl. simpl in Hl. lia.
Qed.

(** The header [Do] sends, from the header of the request it got. *)
Lemma Do_header_User_Agent (ctx : Context) (h : http.Header) (ua : string) :
  h !! "User-Agent" = None ->
  (let h1 := match reqid ctx with
             | Some reqId => http.Set_ h "X-Reqid" reqId
             | None => h
             end in
   match h1 !! "User-Agent" with
   | None => http.Set_ h1 "User-Agent" ua
   | Some _ => h1
   end) !! "User-Agent" = Some [ua].
Proof.
  intros Hua. simpl.
  assert (Hh1 : match reqid ctx with
                | Some reqId => http.Set_ h "X-Reqid" reqId
                | None => h
                end !! "User-Agent" = None).
  { destruct (reqid ctx); [|exact Hua].
    unfold http.Set_. change (textproto.CanonicalMIMEHeaderKey "X-Reqid") with "X-Reqid".
    by rewrite lookup_insert_ne. }
  rewrite Hh1. unfold http.Set_.
  change (textproto.CanonicalMIMEHeaderKey "User-Agent") with "User-Agent".
  apply lookup_insert_eq.
Qed.

Lemma Do_header_other (ctx : Context) (h : http.Header) (ua k : string) :
  k <> "X-Reqid" -> k <> "User-Agent" ->
  (let h1 := match reqid ctx with
             | Some reqId => http.Set_ h "X-Reqid" reqId
             | None => h
             end in
   match h1 !! "User-Agent" with
   | None => http.Set_ h1 "User-Agent" ua
   | Some _ => h1
   end) !! k = h !! k.
Proof.
  intros Hk1 Hk2. simpl.
  assert (Hh1 : match reqid ctx with
                | Some reqId => http.Set_ h "X-Reqid" reqId
                | None => h
                end !! k = h !! k).
  { destruct (reqid ctx); [|reflexivity].
    unfold http.Set_. change (textproto.CanonicalMIMEHeaderKey "X-Reqid") with "X-Reqid".
    by rewrite lookup_insert_ne. }
  destruct (_ !! "User-Agent"); [exact Hh1|].
  unfold http.Set_. change (textproto.CanonicalMIMEHeaderKey "User-Agent") with "User-Agent".
  by rewrite lookup_insert_ne.
Qed.

(** The request [Do] hands to the HTTP client is the one it got, but for
    the headers [X-Reqid] and [User-Agent]. *)
Lemma Do_dispatches (r : Client) (ctx : option Context) (req req' : Request) (w : World) :
  sent (snd (Do r ctx req w)) = sent w ++ [req'] ->
  Method req' = Method req /\ URL req' = URL req /\ ReqBody req' = ReqBody req
  /\ ReqContentLength req' = ReqContentLength req
  /\ (forall k, k <> "X-Reqid" -> k <> "User-Agent" -> ReqHeader req' !! k = ReqHeader req !! k)
  /\ (ReqHeader req !! "User-Agent" = None -> ReqHeader req' !! "User-Agent" = Some [UserAgent w]).
Proof.
  unfold Do. set (c := default Background ctx).
  set (req1 := match reqid c with
               | Some reqId => with_Header req (http.Set_ (ReqHeader req) "X-Reqid" reqId)
               | None => req
               end).
  set (req2 := match ReqHeader req1 !! "User-Agent" with
               | None => with_Header req1 (http.Set_ (ReqHeader req1) "User-Agent" (UserAgent w))
               | Some _ => req1
               end).
  assert (Hreq2 : Method req2 = Method req /\ URL req2 = URL req /\ ReqBody req2 = ReqBody req
    /\ ReqContentLength req2 = ReqContentLength req
    /\ (forall k, k <> "X-Reqid" -> k <> "User-Agent" -> ReqHeader req2 !! k = ReqHeader req !! k)
    /\ (ReqHeader req !! "User-Agent" = None -> ReqHeader req2 !! "User-Agent" = Some [UserAgent w])).
  { assert (Hh : ReqHeader req2 =
      let h1 := match reqid c with
                | Some reqId => http.Set_ (ReqHeader req) "X-Reqid" reqId
                | None => ReqHeader req
                end in
      match h1 !! "User-Agent" with
      | None => http.Set_ h1 "User-Agent" (UserAgent w)
      | Some _ => h1
      end).
    { subst req2 req1. simpl. destruct (reqid c); simpl;
        destruct (_ !! "User-Agent"); reflexivity. }
    repeat split.
    1-4: subst req2 req1; destruct (reqid c); simpl;
         destruct (_ !! "User-Agent"); reflexivity.
    - intros k Hk1 Hk2. rewrite Hh. by apply Do_header_other.
    - intros Hua. rewrite Hh. by apply Do_header_User_Agent. }
  clearbody req2. clear req1.
  destruct (cancellation c) as [|e|e]; simpl.
  - destruct (getRequestCanceler _); simpl;
      intros Hs%snoc_inv; by subst req'.
  - intros Hs. by apply not_snoc in Hs.
  - destruct (getRequestCanceler _); simpl;
      intros Hs%snoc_inv; by subst req'.
Qed.

(** [Do] hands the request over unless the context is done beforehand. *)
Lemma Do_progress (r : Client) (ctx : option Context) (req : Request) (w : World) :
  (forall e, cancellation (default Background ctx) <> BeforeDispatch e) ->
  exists req', sent (snd (Do r ctx req w)) = sent w ++ [req'].
Proof.
  intros Hc. unfold Do.
  destruct (cancellation (default Background ctx)) as [|e|e]; simpl.
  - destruct (getRequestCanceler _); simpl; eauto.
  - by destruct (Hc e).
  - destruct (getRequestCanceler _); simpl; eauto.
Qed.

Lemma newRequest_fields (ctx : Context) (method reqUrl : string)
    (headers : option http.Header) (body : option (list byte)) (req : Request) :
  newRequest ctx method reqUrl headers body = inl req ->
  URL req = reqUrl /\ ReqBody req = body
  /\ (forall k, k <> "Authorization" -> ReqHeader req !! k = default ∅ headers !! k).
Proof.
  unfold newRequest. destruct (NewRequest_error method reqUrl); [discriminate|].
  destruct (credentials ctx) as [sign|].
  - destruct (sign _) as [token|err]; [|discriminate].
    intros [= <-]. simpl. repeat split. intros k Hk. unfold http.Add.
    change (textproto.CanonicalMIMEHeaderKey "Authorization") with "Authorization".
    by rewrite lookup_insert_ne.
  - intros [= <-]. simpl. repeat split.
Qed.

(** The form call hands a request over when [http.NewRequest] takes the
    method and any URL, the context has no credentials and is not done
    beforehand. *)
Lemma DoRequestWithForm_sends (r : Client) (ctx : Context) (method reqUrl : string)
    (headers : option http.Header) (data : url.Values) (w : World) :
  (forall u, NewRequest_error method u = None) ->
  credentials ctx = None ->
  (forall e, cancellation ctx <> BeforeDispatch e) ->
  exists req, sent (snd (DoRequestWithForm r ctx method reqUrl headers data w)) = sent w ++ [req].
Proof.
  intros Hnew Hcred Hc. unfold DoRequestWithForm, DoRequest, DoRequestWith, newRequest.
  destruct (_ || _); rewrite Hnew, Hcred; by apply Do_progress.
Qed.

(** C6. When the context is done before the dispatch, [Do] returns the
    context's error and no response, and the HTTP client is not called:
    the record of what was handed to it is as before. *)
Theorem Do_cancelled_before_dispatch (r : Client) (ctx : Context) (req : Request)
    (w : World) (e : error) :
  cancellation ctx = BeforeDispatch e ->
  Do r (Some ctx) req w = ((None, Some e), w)
  /\ sent (snd (Do r (Some ctx) req w)) = sent w.
Proof.
  intros Hc. assert (Hdo : Do r (Some ctx) req w = ((None, Some e), w)).
  { unfold Do. simpl. rewrite Hc. reflexivity. }
  split; [exact Hdo | by rewrite Hdo].
Qed.

(** C7 (as amended). Whenever [DoRequestWithForm] hands a request to the
    HTTP client: for GET, HEAD and DELETE the text of its URL is the given
    one, then [&] if that has a [?] in it and [?] if not, then the encoded
    form, and it has no body; where the given URL has no fragment (no [#]),
    neither has the request's, and its query is the encoded form, after the
    query of the given URL and [&] if that has a [?]. For any other method
    its URL is the given one, its body is the encoded form, and its
    [Content-Type] ends with [application/x-www-form-urlencoded]. *)
Theorem DoRequestWithForm_request (r : Client) (ctx : Context) (method reqUrl : string)
    (headers : option http.Header) (data : url.Values) (w : World) (req : Request) :
  sent (snd (DoRequestWithForm r ctx method reqUrl headers data w)) = sent w ++ [req] ->
  (in_query method ->
     URL req = (reqUrl +:+ (if ContainsRune reqUrl "?" then "&" else "?")) +:+ url.Encode data
     /\ ReqBody req = None
     /\ (ContainsRune reqUrl "#" = false ->
           url.fragment (URL req) = ""
           /\ url.RawQuery (URL req) =
                if ContainsRune reqUrl "?"
                then url.RawQuery reqUrl +:+ "&" +:+ url.Encode data
                else url.Encode data))
  /\ (~ in_query method ->
     URL req = reqUrl
     /\ ReqBody req = Some (list_byte_of_string (url.Encode data))
     /\ ReqContentLength req = Z.of_nat (String.length (url.Encode data))
     /\ ReqHeader req !! "Content-Type" =
          Some (default [] (default ∅ headers !! "Content-Type")
                ++ ["application/x-www-form-urlencoded"])).
Proof.
  unfold DoRequestWithForm, in_query.
  destruct (String.eqb method "GET" || String.eqb method "HEAD" || String.eqb method "DELETE")
    eqn:Hm.
  - intros Hs. split.
    + intros _. unfold DoRequest in Hs.
      destruct (newRequest _ _ _ _ _) as [req0|err] eqn:Hn; simpl in Hs;
        [|by apply not_snoc in Hs].
      apply Do_dispatches in Hs as (_ & Hu & Hb & _).
      apply newRequest_fields in Hn as (Hu0 & Hb0 & _).
      assert (Htext : URL req = (reqUrl +:+ (if ContainsRune reqUrl "?" then "&" else "?"))
                                +:+ url.Encode data).
      { rewrite Hu, Hu0. by destruct (ContainsRune reqUrl "?"). }
      split; [exact Htext|]. split; [by rewrite Hb, Hb0|].
      intros Hurl. rewrite Htext.
      apply form_in_RawQuery; [exact Hurl | apply Encode_no_fragment].
    + intros Hq. exfalso. apply Hq.
      apply orb_true_iff in Hm as [Hm|Hm]; [apply orb_true_iff in Hm as [Hm|Hm]|];
        apply String.eqb_eq in Hm; auto.
  - intros Hs. split.
    + intros Hq. exfalso.
      apply orb_false_iff in Hm as [Hm Hd]. apply orb_false_iff in Hm as [Hg Hh].
      apply String.eqb_neq in Hg, Hh, Hd. tauto.
    + intros _. unfold DoRequestWith in Hs.
      destruct (newRequest _ _ _ _ _) as [req0|err] eqn:Hn; simpl in Hs;
        [|by apply not_snoc in Hs].
      apply Do_dispatches in Hs as (_ & Hu & Hb & Hl & Hk & _).
      apply newRequest_fields in Hn as (Hu0 & Hb0 & Hk0).
      rewrite Hu, Hb, Hl, Hk by done. simpl. rewrite Hu0, Hb0, Hk0 by done. simpl.
      repeat split. unfold http.Add.
      change (textproto.CanonicalMIMEHeaderKey "Content-Type") with "Content-Type".
      apply lookup_insert_eq.
Qed.

(** C9 (as amended). Whenever [Do] hands a request to the HTTP client
    and the request it got had no [User-Agent] header, the header is the
    value of the variable [UserAgent] at that time. That value is
    [Golang qiniu/client package] at first; [SetAppName], given a name in
    letters, digits, underscores, spaces, hyphens and dots, returns nil and
    makes it [QiniuGo/version (os; arch; name) runtime-version]. *)
Theorem Do_sets_User_Agent (r : Client) (ctx : option Context) (req req' : Request) (w : World) :
  ReqHeader req !! "User-Agent" = None ->
  sent (snd (Do r ctx req w)) = sent w ++ [req'] ->
  ReqHeader req' !! "User-Agent" = Some [UserAgent w]
  /\ UserAgent initial = "Golang qiniu/client package"
  /\ (forall userApp w0, valid_userApp userApp = true ->
        SetAppName userApp w0 =
          (None,
           {| UserAgent := "QiniuGo/" +:+ conf_Version +:+ " (" +:+ runtime_GOOS +:+ "; "
                           +:+ runtime_GOARCH +:+ "; " +:+ userApp +:+ ") " +:+ runtime_Version;
              sent := sent w0 |})).
Proof.
  intros Hua Hs. apply Do_dispatches in Hs as (_ & _ & _ & _ & _ & Hset).
  split; [by apply Hset|]. split; reflexivity.
Qed.

End RequestProperties.

(** * The statements run on sample data *)

Section Runs.
#[local] Existing Instance model_Json.
#[local] Existing Instance model_Decoder.
#[local] Existing Instance model_Net.
#[local] Existing Instance model_Build.

Ltac run := vm_compute; reflexivity.

(** C1, as first stated, fails: a 204 response without a body, given to
    [CallRet] with a nil destination, comes back as an error. *)
Lemma no_content_is_an_error :
  201 <= StatusCode no_content <= 299
  /\ ContentLength no_content = 0
  /\ CallRet None (None : option errorBody) no_content =
       (Returns (Some (ErrInfo {| Err := ""; Key := ""; Reqid := "r1"; Errno := 0; Code := 204 |})),
        None, {| unread := []; ending := None; closed := true |})
  /\ fst (fst (CallRet None (None : option errorBody) no_content)) <> Returns None.
Proof.
  split; [unfold no_content, response; simpl; lia|].
  split; [reflexivity|]. split; [run|].
  vm_compute. discriminate.
Qed.

(** What [CallRet] does return for the 204 response. *)
Lemma CallRet_2xx_without_payload_witness :
  CallRet None (None : option errorBody) no_content =
    (Returns (Some (ErrInfo (bare no_content))), None, Close (Discard (Body no_content))).
Proof.
  apply CallRet_2xx_without_payload;
    [unfold no_content, response; simpl; lia | left; reflexivity].
Defined.

(** C2, as first stated, fails: a 201 response whose body decodes into
    the destination is decoded, and [CallRet] returns an error. *)
Lemma created_is_an_error :
  200 <= StatusCode created <= 299
  /\ ContentLength created <> 0
  /\ fst (DecodeBody (Body created) json.zero) =
       (None, {| body_Err := ""; body_Key := "k1"; body_Errno := 0 |})
  /\ CallRet None (Some json.zero) created =
       (Returns (Some (ErrInfo {| Err := ""; Key := ""; Reqid := ""; Errno := 0; Code := 201 |})),
        Some {| body_Err := ""; body_Key := "k1"; body_Errno := 0 |},
        {| unread := []; ending := None; closed := true |})
  /\ fst (fst (CallRet None (Some json.zero) created)) <> Returns None.
Proof.
  split; [unfold created, response; simpl; lia|].
  split; [vm_compute; discriminate|].
  split; [run|]. split; [run|].
  vm_compute. discriminate.
Qed.

(** The same body under status 200 is decoded and no error is returned. *)
Lemma CallRet_decodes_witness :
  CallRet None (Some json.zero) stored =
    (Returns None, Some {| body_Err := ""; body_Key := "k1"; body_Errno := 0 |},
     Close (Discard (Body stored)))
  /\ released (Body stored) (Close (Discard (Body stored))).
Proof.
  eapply (CallRet_decodes None json.zero _ _ stored);
    [unfold stored, response; simpl; lia | vm_compute; discriminate | run].
Defined.



(** C4, as first stated, fails: under [text/plain] the body of a 500
    response is not read, and [Err] stays empty. *)
Lemma text_plain_failure_has_no_message :
  ~ (200 <= StatusCode failure_text <= 299)
  /\ Header failure_text !! "Content-Type" = Some ["text/plain"]
  /\ string_of_list_byte (unread (Body failure_text)) = "internal failure"
  /\ CallRet None (None : option errorBody) failure_text =
       (Returns (Some (ErrInfo {| Err := ""; Key := ""; Reqid := ""; Errno := 0; Code := 500 |})),
        None, {| unread := []; ending := None; closed := true |}).
Proof.
  split; [unfold failure_text, response; simpl; lia|].
  split; [run|]. split; run.
Qed.

(** Under a JSON content type the text is read and becomes [Err]. *)
Lemma CallRet_text_error_witness :
  exists e, fst (fst (CallRet None (None : option errorBody) failure_json_text))
              = Returns (Some (ErrInfo e))
            /\ Err e = "internal failure".
Proof.
  apply (CallRet_text_error None (None : option errorBody) failure_json_text
           "application/json; charset=utf-8" []);
    [unfold failure_json_text, response; simpl; lia | vm_compute; discriminate
    | run | run | run | run].
Defined.

(** C5, as first stated, fails: below status 200 the body is not read
    either. A 101 response with the JSON error body has an empty [Err]. *)
Lemma switching_body_is_not_parsed :
  ~ (200 <= StatusCode switching <= 299)
  /\ ContentLength switching <> 0
  /\ Header switching !! "Content-Type" = Some ["application/json"]
  /\ Unmarshal (unread (Body switching)) =
       Some {| body_Err := "bad token"; body_Key := "k1"; body_Errno := 612 |}
  /\ CallRet None (None : option errorBody) switching =
       (Returns (Some (ErrInfo {| Err := ""; Key := ""; Reqid := ""; Errno := 0; Code := 101 |})),
        None, {| unread := []; ending := None; closed := true |}).
Proof.
  split; [unfold switching, response; simpl; lia|].
  split; [vm_compute; discriminate|].
  split; [run|]. split; run.
Qed.

(** The error body of the specification under status 401. *)
Lemma CallRet_json_error_witness :
  exists e, fst (fst (CallRet None (None : option errorBody) unauthorized))
              = Returns (Some (ErrInfo e))
            /\ Err e = "bad token" /\ Key e = "k1" /\ Errno e = 612.
Proof.
  destruct (CallRet_json_error None (None : option errorBody) unauthorized
              "application/json" [] bad_token) as (e & He & Hfields & _);
    [unfold unauthorized, response; simpl; lia | vm_compute; discriminate
    | run | run | run |].
  exists e. split; [exact He|].
  apply (Hfields {| body_Err := "bad token"; body_Key := "k1"; body_Errno := 612 |});
    [run | discriminate].
Defined.

(** A context cancelled before the dispatch. *)
Lemma Do_cancelled_before_dispatch_witness :
  Do DefaultClient (Some cancelled) get_request initial = ((None, Some Canceled), initial)
  /\ sent (snd (Do DefaultClient (Some cancelled) get_request initial)) = sent initial.
Proof. apply Do_cancelled_before_dispatch. reflexivity. Defined.

(** C7, as first stated, fails: appended to a URL with a fragment, the
    form becomes the end of the fragment and the request has no query. *)
Lemma form_lands_in_fragment :
  in_query "GET"
  /\ exists req,
       sent (snd (DoRequestWithForm DefaultClient Background "GET" "http://x/y#top" None form
                    initial)) = [req]
       /\ URL req = "http://x/y#top?a=1"
       /\ url.RawQuery (URL req) = ""
       /\ url.fragment (URL req) = "top?a=1".
Proof.
  split; [left; reflexivity|].
  eexists. split; [run|]. split; [run|]. split; run.
Qed.

(** The three form calls of the specification. *)
Lemma DoRequestWithForm_request_witness :
  (exists req,
     sent (snd (DoRequestWithForm DefaultClient Background "GET" "http://x/y" None form initial))
       = [req]
     /\ URL req = "http://x/y?a=1" /\ ReqBody req = None
     /\ url.fragment (URL req) = "" /\ url.RawQuery (URL req) = "a=1")
  /\ (exists req,
     sent (snd (DoRequestWithForm DefaultClient Background "GET" "http://x/y?z=2" None form initial))
       = [req]
     /\ URL req = "http://x/y?z=2&a=1" /\ ReqBody req = None
     /\ url.fragment (URL req) = "" /\ url.RawQuery (URL req) = "z=2&a=1")
  /\ (exists req,
     sent (snd (DoRequestWithForm DefaultClient Background "POST" "http://x/y" None form initial))
       = [req]
     /\ URL req = "http://x/y" /\ ReqBody req = Some (list_byte_of_string "a=1")
     /\ ReqHeader req !! "Content-Type" = Some ["application/x-www-form-urlencoded"]).
Proof.
  assert (Hget : in_query "GET") by (left; reflexivity).
  split; [|split].
  - eexists. split; [run|].
    edestruct (DoRequestWithForm_request DefaultClient Background "GET" "http://x/y" None form
                 initial) as [Hreq _]; [run|].
    apply Hreq in Hget as (Hu & Hb & Hq). specialize (Hq eq_refl) as [Hf Hq].
    split; [exact Hu|]. split; [exact Hb|]. split; [exact Hf | exact Hq].
  - eexists. split; [run|].
    edestruct (DoRequestWithForm_request DefaultClient Background "GET" "http://x/y?z=2" None form
                 initial) as [Hreq _]; [run|].
    apply Hreq in Hget as (Hu & Hb & Hq). specialize (Hq eq_refl) as [Hf Hq].
    split; [exact Hu|]. split; [exact Hb|]. split; [exact Hf | exact Hq].
  - assert (Hpost : ~ in_query "POST")
      by (unfold in_query; intros [Hm | [Hm | Hm]]; discriminate).
    eexists. split; [run|].
    edestruct (DoRequestWithForm_request DefaultClient Background "POST" "http://x/y" None form
                 initial) as [_ Hreq]; [run|].
    apply Hreq in Hpost as (Hu & Hb & _ & Hh).
    split; [exact Hu|]. split; [exact Hb | exact Hh].
Defined.

(** C9, as first stated, fails: before any [SetAppName] the header is a
    fixed text that is no build identifier; and [SetAppName] takes a name
    with a semicolon in it as it is. *)
Lemma default_User_Agent_is_no_build_identifier :
  (exists req,
     ReqHeader get_request !! "User-Agent" = None
     /\ sent (snd (Do DefaultClient None get_request initial)) = [req]
     /\ ReqHeader req !! "User-Agent" = Some ["Golang qiniu/client package"]
     /\ forall version os arch app rt : string,
          "Golang qiniu/client package"
          <> "QiniuGo/" +:+ version +:+ " (" +:+ os +:+ "; " +:+ arch +:+ "; " +:+ app
             +:+ ") " +:+ rt)
  /\ valid_userApp "a;b" = false
  /\ SetAppName "a;b" initial =
       (None, {| UserAgent := "QiniuGo/7.2.5 (linux; amd64; a;b) go1.12"; sent := [] |}).
Proof.
  split; [|split; run].
  eexists. split; [run|]. split; [run|]. split; [run|].
  intros version os arch app rt. cbv. discriminate.
Qed.

(** After [SetAppName] the header is the build identifier. *)
Lemma Do_sets_User_Agent_witness :
  exists req,
    sent (snd (Do DefaultClient None get_request (snd (SetAppName "my-app 1.0" initial)))) = [req]
    /\ ReqHeader req !! "User-Agent" = Some ["QiniuGo/7.2.5 (linux; amd64; my-app 1.0) go1.12"].
Proof.
  eexists. split; [run|].
  match goal with
  | |- ReqHeader ?req !! _ = _ =>
      destruct (Do_sets_User_Agent DefaultClient None get_request req
                  (snd (SetAppName "my-app 1.0" initial))) as [Hua _]; [run | run |]
  end.
  exact Hua.
Defined.

(** The 201 response: the destination is written and an error returned. *)
Lemma CallRet_populates_then_fails_witness :
  exists e,
    CallRet None (Some json.zero) created =
      (Returns (Some (ErrInfo e)),
       Some {| body_Err := ""; body_Key := "k1"; body_Errno := 0 |},
       Close (Discard (Body created)))
    /\ Err e = "" /\ Key e = "" /\ Errno e = 0 /\ Code e = StatusCode created.
Proof.
  eapply CallRet_populates_then_fails;
    [unfold created, response; simpl; lia | vm_compute; discriminate | run].
Defined.

End Runs.

(** * More on [CallRet], [ResponseError] and [parseError] *)

Section ResponseExtras.
Context {JS : Json} {T : Type} {DT : Decoder T}.

(** In [200,299] [CallRet] returns nil at status 200 only, and never
    panics. *)
Lemma CallRet_2xx_outcome (ctx : option Context) (ret : option T) (resp : Response) :
  200 <= StatusCode resp <= 299 ->
  (fst (fst (CallRet ctx ret resp)) = Returns None /\ StatusCode resp = 200)
  \/ (exists e, fst (fst (CallRet ctx ret resp)) = Returns (Some e)).
Proof.
  intros Hs. unfold CallRet.
  assert (H2 : (StatusCode resp ÷ 100 =? 2) = true) by (apply status_2xx; lia).
  rewrite H2.
  assert (Hfail : forall (r : option T) (b : ReadCloser),
    exists e, fst (fst (let '(o, b') := ResponseError (with_Body resp b) in
      (match o with Returns e => Returns (Some e) | Panics m => Panics m end,
       r, Close (Discard b')))) = Returns (Some e)).
  { intros r b. rewrite ResponseError_le_299 by (simpl; lia). simpl. eauto. }
  destruct ret as [v|].
  - destruct (negb (ContentLength resp =? 0)).
    + destruct (DecodeBody (Body resp) v) as [[[e|] v'] b']; simpl; [eauto|].
      destruct (StatusCode resp =? 200) eqn:H200; [left|right; apply Hfail].
      split; [reflexivity | by apply Z.eqb_eq].
    + simpl. destruct (StatusCode resp =? 200) eqn:H200; [left|right; apply Hfail].
      split; [reflexivity | by apply Z.eqb_eq].
  - simpl. destruct (StatusCode resp =? 200) eqn:H200; [left|right; apply Hfail].
    split; [reflexivity | by apply Z.eqb_eq].
Qed.

(** When [ResponseError] panics. *)
Lemma ResponseError_panics (resp : Response) (m : string) :
  fst (ResponseError resp) = Panics m <->
  m = index_out_of_range /\ 299 < StatusCode resp /\ ContentLength resp <> 0
  /\ Header resp !! "Content-Type" = Some [].
Proof.
  unfold ResponseError.
  destruct (299 <? StatusCode resp) eqn:Hs; simpl.
  - apply Z.ltb_lt in Hs.
    destruct (ContentLength resp =? 0) eqn:Hl; simpl.
    + apply Z.eqb_eq in Hl. split; [discriminate | tauto].
    + apply Z.eqb_neq in Hl.
      destruct (Header resp !! "Content-Type") as [[|ct cts]|]; simpl.
      * split; [intros [= <-]; auto | intros (-> & _); reflexivity].
      * destruct (HasPrefix ct "application/json");
          [destruct (parseError _ (Body resp))|]; simpl;
          (split; [discriminate | intros (_ & _ & _ & ?); discriminate]).
      * split; [discriminate | intros (_ & _ & _ & ?); discriminate].
  - apply Z.ltb_ge in Hs. split; [discriminate | lia].
Qed.

(** X1. At status 200, with a nil destination or a [ContentLength] of
    zero, [CallRet] returns nil without decoding: the destination is as it
    was, and the body is discarded and closed. *)
Theorem CallRet_200_without_payload (ctx : option Context) (ret : option T) (resp : Response) :
  StatusCode resp = 200 ->
  ret = None \/ ContentLength resp = 0 ->
  CallRet ctx ret resp = (Returns None, ret, Close (Discard (Body resp))).
Proof.
  intros Hs Hnone. unfold CallRet. rewrite Hs. simpl.
  destruct Hnone as [-> | ->]; [reflexivity|]. by destruct ret.
Qed.

(** X2. In [200,299], with a destination and a [ContentLength] that is not
    zero, an error of the decoder is what [CallRet] returns, at status 200
    too; the destination holds whatever the decoder left in it, and the
    body is discarded and closed. *)
Theorem CallRet_decoder_error (ctx : option Context) (v v' : T) (e : error)
    (b1 : ReadCloser) (resp : Response) :
  200 <= StatusCode resp <= 299 ->
  ContentLength resp <> 0 ->
  DecodeBody (Body resp) v = (Some e, v', b1) ->
  CallRet ctx (Some v) resp = (Returns (Some e), Some v', Close (Discard (Body resp))).
Proof.
  intros Hs Hl Hdec. unfold CallRet.
  assert (H2 : (StatusCode resp ÷ 100 =? 2) = true) by (apply status_2xx; lia).
  apply Z.eqb_neq in Hl. rewrite H2, Hl, Hdec. simpl.
  destruct (DecodeBody_advance _ _ _ _ _ Hdec) as [n ->].
  by rewrite Discard_advance.
Qed.

(** X3. [CallRet] returns a nil error at status 200 only. *)
Theorem CallRet_nil_only_at_200 (ctx : option Context) (ret : option T) (resp : Response) :
  fst (fst (CallRet ctx ret resp)) = Returns None ->
  StatusCode resp = 200.
Proof.
  intros Hnil.
  destruct (decide (200 <= StatusCode resp <= 299)) as [Hs | Hs].
  - destruct (CallRet_2xx_outcome ctx ret resp Hs) as [[_ H200] | [e He]]; [exact H200|].
    rewrite He in Hnil. discriminate.
  - rewrite CallRet_not_2xx in Hnil by exact Hs. simpl in Hnil.
    destruct (fst (ResponseError resp)); discriminate.
Qed.

(** X4. Outside [200,299] [CallRet] does not touch the destination,
    whatever the body holds. *)
Theorem CallRet_keeps_destination (ctx : option Context) (ret : option T) (resp : Response) :
  ~ (200 <= StatusCode resp <= 299) ->
  snd (fst (CallRet ctx ret resp)) = ret.
Proof. intros Hs. by rewrite CallRet_not_2xx. Qed.

(** X5. Given a response and a body that are not nil, and a decoder that
    does not panic, [CallRet] panics in one case only: the status is above
    299, [ContentLength] is not zero, and the header has a [Content-Type]
    entry without a value, on which [ct[0]] is out of range; the panic is
    Go's run-time error for that index. *)
Theorem CallRet_panics_iff (ctx : option Context) (ret : option T) (resp : Response)
    (m : string) :
  fst (fst (CallRet ctx ret resp)) = Panics m <->
  m = index_out_of_range /\ 299 < StatusCode resp /\ ContentLength resp <> 0
  /\ Header resp !! "Content-Type" = Some [].
Proof.
  destruct (decide (200 <= StatusCode resp <= 299)) as [Hs | Hs].
  - split.
    + intros Hp.
      destruct (CallRet_2xx_outcome ctx ret resp Hs) as [[He _] | [e He]];
        rewrite He in Hp; discriminate.
    + intros (_ & Hgt & _). lia.
  - rewrite CallRet_not_2xx by exact Hs. simpl.
    rewrite <- ResponseError_panics.
    destruct (fst (ResponseError resp)); split; congruence.
Qed.

(** X6. [ResponseError] leaves the body unread, and returns the
    [ErrorInfo] with nothing but [Code] and [Reqid], in each of these
    cases: the status is at most 299; [ContentLength] is zero; there is no
    [Content-Type]; the first [Content-Type] value does not begin with
    [application/json]. *)
Theorem ResponseError_reads_nothing (resp : Response) :
  StatusCode resp <= 299
  \/ ContentLength resp = 0
  \/ Header resp !! "Content-Type" = None
  \/ (exists ct cts, Header resp !! "Content-Type" = Some (ct :: cts)
                     /\ HasPrefix ct "application/json" = false) ->
  ResponseError resp = (Returns (ErrInfo (bare resp)), Body resp).
Proof.
  intros Hcase. unfold ResponseError. fold (bare resp).
  destruct (299 <? StatusCode resp) eqn:Hs; [|reflexivity].
  destruct (ContentLength resp =? 0) eqn:Hl; [reflexivity|]. simpl.
  apply Z.ltb_lt in Hs. apply Z.eqb_neq in Hl.
  destruct Hcase as [H1 | [H1 | [H1 | (ct & cts & H1 & Hp)]]]; [lia | done | |].
  - by rewrite H1.
  - by rewrite H1, Hp.
Qed.

(** X7. When the body of an error response breaks off with a read error
    (status above 299, [ContentLength] not zero, JSON content type), [Err]
    is the message of the read error, whatever was read before it; [Key]
    and [Errno] stay zero. *)
Theorem CallRet_read_error (ctx : option Context) (ret : option T) (resp : Response)
    (ct : string) (cts : list string) (body : list byte) (msg : string) :
  299 < StatusCode resp ->
  ContentLength resp <> 0 ->
  Header resp !! "Content-Type" = Some (ct :: cts) ->
  HasPrefix ct "application/json" = true ->
  available (Body resp) = (body, Some msg) ->
  fst (fst (CallRet ctx ret resp)) =
    Returns (Some (ErrInfo {| Err := msg; Key := ""; Reqid := http.Get (Header resp) "X-Reqid";
                              Errno := 0; Code := StatusCode resp |})).
Proof.
  intros Hs Hl Hct Hp Hbody.
  rewrite CallRet_not_2xx by lia. simpl.
  rewrite (ResponseError_parses resp ct cts Hs Hl Hct Hp).
  unfold parseError, ReadAll. rewrite Hbody. reflexivity.
Qed.

(** X8. When the body of an error response decodes but its [error] field
    is empty, nothing of it is taken over: [Err] is the body as text, and
    [Key] and [Errno] stay zero whatever the body gives for them. *)
Theorem CallRet_error_field_empty (ctx : option Context) (ret : option T) (resp : Response)
    (ct : string) (cts : list string) (body : list byte) (r : errorBody) :
  299 < StatusCode resp ->
  ContentLength resp <> 0 ->
  Header resp !! "Content-Type" = Some (ct :: cts) ->
  HasPrefix ct "application/json" = true ->
  available (Body resp) = (body, None) ->
  Unmarshal body = Some r ->
  body_Err r = "" ->
  fst (fst (CallRet ctx ret resp)) =
    Returns (Some (ErrInfo {| Err := string_of_list_byte body; Key := "";
                              Reqid := http.Get (Header resp) "X-Reqid";
                              Errno := 0; Code := StatusCode resp |})).
Proof.
  intros Hs Hl Hct Hp Hbody Hr Hempty.
  rewrite CallRet_not_2xx by lia. simpl.
  rewrite (ResponseError_parses resp ct cts Hs Hl Hct Hp).
  unfold parseError, ReadAll. rewrite Hbody, Hr, Hempty. reflexivity.
Qed.

End ResponseExtras.

(** * More on [Do], [getRequestCanceler] and the request builders *)

Section RequestExtras.
Context {NET : Net} {BLD : Build}.

Lemma unwrap_find (p : object) : unwrap p = find canceler (tl (chain p)).
Proof.
  induction p as [c | c | c q IH]; simpl; [reflexivity | reflexivity |].
  destruct q as [cq | cq | cq q']; simpl in *; destruct cq; auto.
Qed.

(** The header of the request [Do] hands over. *)
Lemma Do_dispatched_header (r : Client) (ctx : option Context) (req req' : Request) (w : World) :
  sent (snd (Do r ctx req w)) = sent w ++ [req'] ->
  ReqHeader req' =
    let h1 := match reqid (default Background ctx) with
              | Some reqId => http.Set_ (ReqHeader req) "X-Reqid" reqId
              | None => ReqHeader req
              end in
    match h1 !! "User-Agent" with
    | None => http.Set_ h1 "User-Agent" (UserAgent w)
    | Some _ => h1
    end.
Proof.
  unfold Do. set (c := default Background ctx).
  set (req1 := match reqid c with
               | Some reqId => with_Header req (http.Set_ (ReqHeader req) "X-Reqid" reqId)
               | None => req
               end).
  set (req2 := match ReqHeader req1 !! "User-Agent" with
               | None => with_Header req1 (http.Set_ (ReqHeader req1) "User-Agent" (UserAgent w))
               | Some _ => req1
               end).
  assert (Hh : ReqHeader req2 =
    let h1 := match reqid c with
              | Some reqId => http.Set_ (ReqHeader req) "X-Reqid" reqId
              | None => ReqHeader req
              end in
    match h1 !! "User-Agent" with
    | None => http.Set_ h1 "User-Agent" (UserAgent w)
    | Some _ => h1
    end).
  { subst req2 req1. simpl. destruct (reqid c); simpl;
      destruct (_ !! "User-Agent"); reflexivity. }
  clearbody req2. clear req1.
  destruct (cancellation c) as [|e|e]; simpl.
  - destruct (getRequestCanceler _); simpl; intros Hs%snoc_inv; by subst req'.
  - intros Hs. by apply not_snoc in Hs.
  - destruct (getRequestCanceler _); simpl; intros Hs%snoc_inv; by subst req'.
Qed.

(** What [newRequest] returns when it returns a request. *)
Lemma newRequest_inl (ctx : Context) (method reqUrl : string)
    (headers : option http.Header) (body : option (list byte)) (req : Request) :
  newRequest ctx method reqUrl headers body = inl req ->
  match credentials ctx with
  | None => req = unsigned_request method reqUrl headers body
  | Some sign =>
      exists token,
        sign (unsigned_request method reqUrl headers body) = inl token
        /\ req = with_Header (unsigned_request method reqUrl headers body)
                   (http.Add (default ∅ headers) "Authorization" ("QBox " +:+ token))
  end.
Proof.
  unfold newRequest. fold (unsigned_request method reqUrl headers body).
  destruct (NewRequest_error method reqUrl); [discriminate|].
  destruct (credentials ctx) as [sign|]; [|by intros [= <-]].
  destruct (sign _) as [token|err]; [|discriminate].
  intros [= <-]. by exists token.
Qed.

(** [Do] returns a response or an error. *)
Lemma Do_result (r : Client) (ctx : option Context) (req : Request) (w : World) :
  (exists resp, fst (Do r ctx req w) = (Some resp, None))
  \/ (exists e, snd (fst (Do r ctx req w)) = Some e).
Proof.
  unfold Do. destruct (cancellation _) as [|e|e]; simpl.
  - destruct (getRequestCanceler _); simpl; destruct (Client_Do _ _ _); simpl; eauto.
  - eauto.
  - destruct (getRequestCanceler _); simpl; destruct (Client_Do _ _ _); simpl; eauto.
Qed.

(** With a context that is done beforehand, the request builders return
    an error and leave the world as it was. *)
Lemma DoRequestWith_turned_down (r : Client) (ctx : Context) (method reqUrl : string)
    (headers : option http.Header) (body : option (list byte)) (bodyLength : Z)
    (w : World) (e : error) :
  cancellation ctx = BeforeDispatch e ->
  exists err, DoRequestWith r ctx method reqUrl headers body bodyLength w = ((None, Some err), w).
Proof.
  intros Hc. unfold DoRequestWith.
  destruct (newRequest _ _ _ _ _) as [req|err]; [|eauto].
  unfold Do. simpl. rewrite Hc. eauto.
Qed.

Lemma DoRequest_turned_down (r : Client) (ctx : Context) (method reqUrl : string)
    (headers : option http.Header) (w : World) (e : error) :
  cancellation ctx = BeforeDispatch e ->
  exists err, DoRequest r ctx method reqUrl headers w = ((None, Some err), w).
Proof.
  intros Hc. unfold DoRequest.
  destruct (newRequest _ _ _ _ _) as [req|err]; [|eauto].
  unfold Do. simpl. rewrite Hc. eauto.
Qed.

(** X9. [getRequestCanceler] returns the outermost object of the chain
    (the transport, what its [NestedObject] returns, and so on) that has
    [CancelRequest]; it finds none exactly when no object of the chain has
    it. *)
Theorem getRequestCanceler_first_in_chain (tp : object) :
  getRequestCanceler tp = find canceler (chain tp).
Proof.
  unfold getRequestCanceler. rewrite unwrap_find.
  destruct tp as [c | c | c q]; simpl; destruct c; reflexivity.
Qed.

(** X10. [Do] hands the request over as it got it, but for two headers:
    method, URL, body and content length are the same, and so is every
    header other than [X-Reqid] and [User-Agent]. *)
Theorem Do_changes_two_headers_only (r : Client) (ctx : option Context) (req req' : Request)
    (w : World) :
  sent (snd (Do r ctx req w)) = sent w ++ [req'] ->
  Method req' = Method req /\ URL req' = URL req /\ ReqBody req' = ReqBody req
  /\ ReqContentLength req' = ReqContentLength req
  /\ (forall k, k <> "X-Reqid" -> k <> "User-Agent" -> ReqHeader req' !! k = ReqHeader req !! k).
Proof.
  intros Hs. apply Do_dispatches in Hs as (Hm & Hu & Hb & Hl & Hk & _). auto.
Qed.

(** X11. The request [Do] hands over carries the request id of the
    context as its only [X-Reqid] value, in place of any the caller had
    set; without a request id in the context (or with a nil context) the
    header is as the caller left it. *)
Theorem Do_sets_X_Reqid (r : Client) (ctx : option Context) (req req' : Request) (w : World) :
  sent (snd (Do r ctx req w)) = sent w ++ [req'] ->
  ReqHeader req' !! "X-Reqid" =
    match reqid (default Background ctx) with
    | Some reqId => Some [reqId]
    | None => ReqHeader req !! "X-Reqid"
    end.
Proof.
  intros Hs. rewrite (Do_dispatched_header _ _ _ _ _ Hs). simpl.
  assert (Hua : forall h : http.Header,
    match h !! "User-Agent" with
    | None => http.Set_ h "User-Agent" (UserAgent w)
    | Some _ => h
    end !! "X-Reqid" = h !! "X-Reqid").
  { intros h. destruct (h !! "User-Agent"); [reflexivity|].
    unfold http.Set_. change (textproto.CanonicalMIMEHeaderKey "User-Agent") with "User-Agent".
    by rewrite lookup_insert_ne. }
  rewrite Hua. destruct (reqid _); [|reflexivity].
  unfold http.Set_. change (textproto.CanonicalMIMEHeaderKey "X-Reqid") with "X-Reqid".
  apply lookup_insert_eq.
Qed.

(** X12. A [User-Agent] entry that the caller has set is handed over as
    it is, whatever the variable [UserAgent] holds. *)
Theorem Do_keeps_User_Agent (r : Client) (ctx : option Context) (req req' : Request)
    (w : World) (values : list string) :
  ReqHeader req !! "User-Agent" = Some values ->
  sent (snd (Do r ctx req w)) = sent w ++ [req'] ->
  ReqHeader req' !! "User-Agent" = Some values.
Proof.
  intros Hua Hs. rewrite (Do_dispatched_header _ _ _ _ _ Hs). simpl.
  assert (Hh1 : match reqid (default Background ctx) with
                | Some reqId => http.Set_ (ReqHeader req) "X-Reqid" reqId
                | None => ReqHeader req
                end !! "User-Agent" = Some values).
  { destruct (reqid _); [|exact Hua].
    unfold http.Set_. change (textproto.CanonicalMIMEHeaderKey "X-Reqid") with "X-Reqid".
    by rewrite lookup_insert_ne. }
  by rewrite Hh1.
Qed.

(** X13. [Do] calls the HTTP client once or not at all (it never retries),
    and it does not change the variable [UserAgent]. *)
Theorem Do_sends_at_most_once (r : Client) (ctx : option Context) (req : Request) (w : World) :
  UserAgent (snd (Do r ctx req w)) = UserAgent w
  /\ (sent (snd (Do r ctx req w)) = sent w
      \/ exists req', sent (snd (Do r ctx req w)) = sent w ++ [req']).
Proof.
  unfold Do. destruct (cancellation _) as [|e|e]; simpl.
  - destruct (getRequestCanceler _); simpl; eauto.
  - auto.
  - destruct (getRequestCanceler _); simpl; eauto.
Qed.

(** X14. [Do] never returns a nil response with a nil error: when its
    error is nil there is a response. *)
Theorem Do_response_or_error (r : Client) (ctx : option Context) (req : Request) (w : World) :
  (exists resp, fst (Do r ctx req w) = (Some resp, None))
  \/ (exists e, snd (fst (Do r ctx req w)) = Some e).
Proof. apply Do_result. Qed.

(** X15. When no object of the transport's chain can cancel, a
    cancellation while the request is in flight changes nothing: [Do]
    does what it does under a context that is never done. *)
Theorem Do_cancel_without_canceler (r : Client) (ctx : Context) (req : Request) (w : World)
    (e : error) :
  getRequestCanceler (default DefaultTransport (Transport r)) = None ->
  cancellation ctx = InFlight e ->
  Do r (Some ctx) req w =
    Do r (Some {| credentials := credentials ctx; reqid := reqid ctx; cancellation := Never |})
       req w.
Proof.
  intros Hcan Hc. unfold Do. simpl. rewrite Hc, Hcan. reflexivity.
Qed.

(** X16. When an object of the transport's chain can cancel and the
    context is done while the request is in flight, [Do] has handed the
    request to the HTTP client once, [CancelRequest] is called on it, and
    [Do] returns the context's error, with the response if the client
    still produced one. *)
Theorem Do_cancel_in_flight (r : Client) (ctx : Context) (req : Request) (w : World)
    (tr : object) (e : error) :
  getRequestCanceler (default DefaultTransport (Transport r)) = Some tr ->
  cancellation ctx = InFlight e ->
  exists req',
    sent (snd (Do r (Some ctx) req w)) = sent w ++ [req']
    /\ fst (Do r (Some ctx) req w) =
         (match Client_Do (sent w) req' true with
          | inl resp => Some resp
          | inr _ => None
          end, Some e).
Proof.
  intros Hcan Hc. unfold Do. simpl. rewrite Hc, Hcan. simpl.
  eexists. split; reflexivity.
Qed.

(** X17. Whenever [DoRequestWith] hands a request to the HTTP client,
    the URL and the body are the given ones and the content length is the
    [bodyLength] of the caller, whatever the length of the body is. *)
Theorem DoRequestWith_request (r : Client) (ctx : Context) (method reqUrl : string)
    (headers : option http.Header) (body : option (list byte)) (bodyLength : Z)
    (w : World) (req : Request) :
  sent (snd (DoRequestWith r ctx method reqUrl headers body bodyLength w)) = sent w ++ [req] ->
  URL req = reqUrl /\ ReqBody req = body /\ ReqContentLength req = bodyLength
  /\ Method req = (if nonempty method then method else "GET").
Proof.
  unfold DoRequestWith.
  destruct (newRequest _ _ _ _ _) as [req0|err] eqn:Hn; simpl;
    [|intros Hs; by apply not_snoc in Hs].
  intros (Hm & Hu & Hb & Hl & _)%Do_dispatches.
  rewrite Hm, Hu, Hb, Hl. simpl.
  apply newRequest_inl in Hn.
  destruct (credentials ctx) as [sign|]; [destruct Hn as (token & _ & ->)|subst req0];
    simpl; auto.
Qed.

(** X18. The [Authorization] header of a request that [DoRequestWith]
    hands over: without credentials in the context it is what the caller
    gave; with credentials, [QBox] and the token come after the caller's
    values, the token being computed from the request as it stands before
    this header is added and before [bodyLength] is set. *)
Theorem DoRequestWith_authorization (r : Client) (ctx : Context) (method reqUrl : string)
    (headers : option http.Header) (body : option (list byte)) (bodyLength : Z)
    (w : World) (req : Request) :
  sent (snd (DoRequestWith r ctx method reqUrl headers body bodyLength w)) = sent w ++ [req] ->
  match credentials ctx with
  | None => ReqHeader req !! "Authorization" = default ∅ headers !! "Authorization"
  | Some sign =>
      exists token,
        sign (unsigned_request method reqUrl headers body) = inl token
        /\ ReqHeader req !! "Authorization" =
             Some (default [] (default ∅ headers !! "Authorization") ++ ["QBox " +:+ token])
  end.
Proof.
  unfold DoRequestWith.
  destruct (newRequest _ _ _ _ _) as [req0|err] eqn:Hn; simpl;
    [|intros Hs; by apply not_snoc in Hs].
  intros (_ & _ & _ & _ & Hk & _)%Do_dispatches.
  rewrite Hk by done. simpl.
  apply newRequest_inl in Hn.
  destruct (credentials ctx) as [sign|].
  - destruct Hn as (token & Hsign & ->). exists token. split; [exact Hsign|].
    simpl. unfold http.Add.
    change (textproto.CanonicalMIMEHeaderKey "Authorization") with "Authorization".
    apply lookup_insert_eq.
  - by subst req0.
Qed.

(** X19. Whenever [DoRequestWithJson] hands a request to the HTTP
    client, the payload was marshalled, the body is the marshalled payload
    with its length as content length, the URL is the given one, and
    [Content-Type] ends with [application/json]; when the payload cannot
    be marshalled nothing is handed over and the error of [json.Marshal]
    is returned. *)
Theorem DoRequestWithJson_request {P} {MP : Marshaler P} (r : Client) (ctx : Context)
    (method reqUrl : string) (headers : option http.Header) (data : P) (w : World) :
  match Marshal data with
  | inr err => DoRequestWithJson r ctx method reqUrl headers data w = ((None, Some err), w)
  | inl reqBody =>
      forall req,
        sent (snd (DoRequestWithJson r ctx method reqUrl headers data w)) = sent w ++ [req] ->
        URL req = reqUrl /\ ReqBody req = Some reqBody
        /\ ReqContentLength req = Z.of_nat (length reqBody)
        /\ ReqHeader req !! "Content-Type" =
             Some (default [] (default ∅ headers !! "Content-Type") ++ ["application/json"])
  end.
Proof.
  unfold DoRequestWithJson. destruct (Marshal data) as [reqBody|err]; [|reflexivity].
  intros req. unfold DoRequestWith.
  destruct (newRequest _ _ _ _ _) as [req0|err] eqn:Hn; simpl;
    [|intros Hs; by apply not_snoc in Hs].
  intros (_ & Hu & Hb & Hl & Hk & _)%Do_dispatches.
  apply newRequest_fields in Hn as (Hu0 & Hb0 & Hk0).
  rewrite Hu, Hb, Hl, Hk by done. simpl. rewrite Hu0, Hb0, Hk0 by done. simpl.
  repeat split. unfold http.Add.
  change (textproto.CanonicalMIMEHeaderKey "Content-Type") with "Content-Type".
  apply lookup_insert_eq.
Qed.

(** X20. The method of a form request is the given one, an empty method
    being sent as GET; but where the form goes is decided on the method as
    given: with an empty method the form is the body of the GET request
    and the URL is left alone. *)
Theorem DoRequestWithForm_method (r : Client) (ctx : Context) (method reqUrl : string)
    (headers : option http.Header) (data : url.Values) (w : World) (req : Request) :
  sent (snd (DoRequestWithForm r ctx method reqUrl headers data w)) = sent w ++ [req] ->
  Method req = (if nonempty method then method else "GET")
  /\ (method = "" ->
      URL req = reqUrl /\ ReqBody req = Some (list_byte_of_string (url.Encode data))).
Proof.
  intros Hs. split.
  - revert Hs. unfold DoRequestWithForm.
    destruct (_ || _); unfold DoRequest, DoRequestWith;
      (destruct (newRequest _ _ _ _ _) as [req0|err] eqn:Hn; simpl;
        [|intros Hs; by apply not_snoc in Hs]);
      intros (Hm & _)%Do_dispatches; rewrite Hm; simpl;
      apply newRequest_inl in Hn;
      (destruct (credentials ctx) as [sign|];
        [destruct Hn as (token & _ & ->)|subst req0]); reflexivity.
  - intros ->. revert Hs. unfold DoRequestWithForm. simpl. unfold DoRequestWith.
    destruct (newRequest _ _ _ _ _) as [req0|err] eqn:Hn; simpl;
      [|intros Hs; by apply not_snoc in Hs].
    intros (_ & Hu & Hb & _)%Do_dispatches.
    apply newRequest_fields in Hn as (Hu0 & Hb0 & _).
    rewrite Hu, Hb. simpl. by rewrite Hu0, Hb0.
Qed.

(** X21. [SetAppName] takes every name: it returns nil, and the next
    request handed over without a [User-Agent] of the caller carries the
    name, as given, in its [User-Agent]. A later [SetAppName] replaces the
    earlier one. *)
Theorem SetAppName_takes_any_name (userApp : string) (r : Client) (ctx : option Context)
    (req req' : Request) (w : World) :
  ReqHeader req !! "User-Agent" = None ->
  sent (snd (Do r ctx req (snd (SetAppName userApp w)))) = sent w ++ [req'] ->
  fst (SetAppName userApp w) = None
  /\ ReqHeader req' !! "User-Agent" =
       Some ["QiniuGo/" +:+ conf_Version +:+ " (" +:+ runtime_GOOS +:+ "; "
             +:+ runtime_GOARCH +:+ "; " +:+ userApp +:+ ") " +:+ runtime_Version]
  /\ (forall earlier, SetAppName userApp (snd (SetAppName earlier w)) = SetAppName userApp w).
Proof.
  intros Hua Hs. split; [reflexivity|]. split; [|reflexivity].
  apply (Do_dispatches r ctx req req' (snd (SetAppName userApp w))) in Hs
    as (_ & _ & _ & _ & _ & Hset).
  by apply Hset.
Qed.

End RequestExtras.

(** * The calls *)

Section CallExtras.
Context {NET : Net} {BLD : Build} {JS : Json} {T : Type} {DT : Decoder T}.


(** X22. A call under a context that is done beforehand is turned down:
    [CallWith], [Call], [CallWithForm] and [CallWithJson] return an error,
    leave the destination as it was and hand nothing to the HTTP client. *)
Theorem Call_turned_down_when_cancelled (r : Client) (ctx : Context) (ret : option T)
    (method reqUrl : string) (headers : option http.Header) (w : World) (e : error) :
  cancellation ctx = BeforeDispatch e ->
  (forall body bodyLength,
     turned_down ret w (CallWith r ctx ret method reqUrl headers body bodyLength w))
  /\ turned_down ret w (Call r ctx ret method reqUrl headers w)
  /\ (forall param, turned_down ret w (CallWithForm r ctx ret method reqUrl headers param w))
  /\ (forall P (MP : Marshaler P) (param : P),
       turned_down ret w (CallWithJson r ctx ret method reqUrl headers param w)).
Proof.
  intros Hc.
  assert (Hwith : forall h body bodyLength,
    turned_down ret w
      (match DoRequestWith r ctx method reqUrl h body bodyLength w with
       | ((_, Some err), w') => (Returns (Some err), ret, w')
       | ((Some resp, None), w') =>
           let '(res, ret', _) := CallRet (Some ctx) ret resp in (res, ret', w')
       | ((None, None), w') => (Panics nil_dereference, ret, w')
       end)).
  { intros h body bodyLength.
    destruct (DoRequestWith_turned_down r ctx method reqUrl h body bodyLength w e Hc)
      as [err ->].
    split; [by exists err | by split]. }
  split; [intros; apply Hwith|]. split; [apply Hwith|]. split.
  - intros param. unfold CallWithForm, DoRequestWithForm.
    destruct (_ || _); [|apply Hwith].
    match goal with
    | |- context [DoRequest r ctx method ?u ?h w] =>
        destruct (DoRequest_turned_down r ctx method u h w e Hc) as [err ->]
    end.
    split; [by exists err | by split].
  - intros P MP param. unfold CallWithJson, DoRequestWithJson.
    destruct (Marshal param) as [reqBody|err]; [apply Hwith|].
    split; [by exists err | by split].
Qed.

(** X23. When the request cannot be built ([http.NewRequest] refuses it,
    or the credentials cannot sign it), [CallWith] returns that error, also
    under a context that is done; the destination is as it was and nothing
    is handed to the HTTP client. *)
Theorem CallWith_construction_error (r : Client) (ctx : Context) (ret : option T)
    (method reqUrl : string) (headers : option http.Header) (body : option (list byte))
    (bodyLength : Z) (w : World) (err : error) :
  newRequest ctx method reqUrl headers body = inr err ->
  CallWith r ctx ret method reqUrl headers body bodyLength w = (Returns (Some err), ret, w).
Proof. intros Hn. unfold CallWith, DoRequestWith. by rewrite Hn. Qed.


End CallExtras.

(** * The further statements run on sample data *)

Section MoreRuns.
#[local] Existing Instance model_Json.
#[local] Existing Instance model_Decoder.
#[local] Existing Instance model_Net.
#[local] Existing Instance model_Build.

Ltac computed := vm_compute; reflexivity.

(** A 200 response without a body and a nil destination. *)
Lemma CallRet_200_without_payload_witness :
  CallRet None (None : option errorBody) empty_ok =
    (Returns None, None, Close (Discard (Body empty_ok))).
Proof. apply CallRet_200_without_payload; [reflexivity | left; reflexivity]. Defined.

(** A 200 response whose body is no JSON: the decoder's error comes back. *)
Lemma CallRet_decoder_error_witness :
  CallRet None (Some json.zero) garbled =
    (Returns (Some json.decode_error), Some json.zero, Close (Discard (Body garbled))).
Proof.
  eapply (CallRet_decoder_error None json.zero json.zero json.decode_error _ garbled);
    [unfold garbled, response; simpl; lia | vm_compute; discriminate | computed].
Defined.

(** The 200 response that decodes. *)
Lemma CallRet_nil_only_at_200_witness : StatusCode stored = 200.
Proof. apply (CallRet_nil_only_at_200 None (Some json.zero) stored). computed. Defined.

(** The body of the 401 response would decode into the destination; it
    is not written. *)
Lemma CallRet_keeps_destination_witness :
  snd (fst (CallRet None (Some json.zero) unauthorized)) = Some json.zero.
Proof.
  apply CallRet_keeps_destination. unfold unauthorized, response; simpl; lia.
Defined.

(** The 500 response in plain text. *)
Lemma ResponseError_reads_nothing_witness :
  ResponseError failure_text = (Returns (ErrInfo (bare failure_text)), Body failure_text).
Proof.
  apply ResponseError_reads_nothing. right; right; right.
  exists "text/plain", []. split; computed.
Defined.

(** The 503 response whose body breaks off. *)
Lemma CallRet_read_error_witness :
  fst (fst (CallRet None (None : option errorBody) broken)) =
    Returns (Some (ErrInfo {| Err := "unexpected EOF"; Key := ""; Reqid := ""; Errno := 0;
                              Code := 503 |})).
Proof.
  apply (CallRet_read_error None (None : option errorBody) broken "application/json" []
           (json.bytes "{'error':'over") "unexpected EOF");
    [unfold broken; simpl; lia | unfold broken; simpl; lia | computed | computed | computed].
Defined.

(** The 404 response whose body has a key and an errno but no error. *)
Lemma CallRet_error_field_empty_witness :
  fst (fst (CallRet None (None : option errorBody) key_only)) =
    Returns (Some (ErrInfo {| Err := json.text "{'key':'k1','errno':612}"; Key := "";
                              Reqid := ""; Errno := 0; Code := 404 |})).
Proof.
  apply (CallRet_error_field_empty None (None : option errorBody) key_only "application/json" []
           (json.bytes "{'key':'k1','errno':612}")
           {| body_Err := ""; body_Key := "k1"; body_Errno := 612 |});
    [unfold key_only, response; simpl; lia | vm_compute; discriminate
    | computed | computed | computed | computed | reflexivity].
Defined.

(** A request with headers of its own under a context with a request id. *)
Lemma Do_changes_two_headers_only_witness :
  exists req',
    sent (snd (Do DefaultClient (Some traced) browser_request initial)) = [req']
    /\ Method req' = "GET" /\ URL req' = "http://x/y" /\ ReqBody req' = None
    /\ ReqHeader req' !! "Accept" = Some ["*/*"].
Proof.
  eexists. split; [computed|].
  match goal with
  | |- Method ?req = _ /\ _ =>
      destruct (Do_changes_two_headers_only DefaultClient (Some traced) browser_request req
                  initial) as (Hm & Hu & Hb & _ & Hk); [computed|]
  end.
  split; [exact Hm|]. split; [exact Hu|]. split; [exact Hb|].
  rewrite Hk by discriminate. computed.
Defined.

Lemma Do_sets_X_Reqid_witness :
  exists req',
    sent (snd (Do DefaultClient (Some traced) browser_request initial)) = [req']
    /\ ReqHeader browser_request !! "X-Reqid" = Some ["old"]
    /\ ReqHeader req' !! "X-Reqid" = Some ["r1"].
Proof.
  eexists. split; [computed|]. split; [computed|].
  match goal with
  | |- ReqHeader ?req !! _ = _ =>
      apply (Do_sets_X_Reqid DefaultClient (Some traced) browser_request req initial)
  end.
  computed.
Defined.

Lemma Do_keeps_User_Agent_witness :
  exists req',
    sent (snd (Do DefaultClient (Some traced) browser_request initial)) = [req']
    /\ ReqHeader req' !! "User-Agent" = Some ["curl/8"].
Proof.
  eexists. split; [computed|].
  match goal with
  | |- ReqHeader ?req !! _ = _ =>
      apply (Do_keeps_User_Agent DefaultClient (Some traced) browser_request req initial)
  end; computed.
Defined.

(** A transport that cannot cancel. *)
Lemma Do_cancel_without_canceler_witness :
  Do deaf_client (Some cancelled_in_flight) get_request initial =
    Do deaf_client (Some {| credentials := None; reqid := None; cancellation := Never |})
       get_request initial.
Proof.
  apply (Do_cancel_without_canceler deaf_client cancelled_in_flight get_request initial Canceled);
    reflexivity.
Defined.

(** A transport that wraps, two layers down, one that can cancel. *)
Lemma Do_cancel_in_flight_witness :
  exists req',
    sent (snd (Do wrapped_client (Some cancelled_in_flight) get_request initial))
      = sent initial ++ [req']
    /\ fst (Do wrapped_client (Some cancelled_in_flight) get_request initial) =
         (match Client_Do (sent initial) req' true with
          | inl resp => Some resp
          | inr _ => None
          end, Some Canceled).
Proof.
  apply (Do_cancel_in_flight wrapped_client cancelled_in_flight get_request initial
           (Plain true) Canceled); reflexivity.
Defined.

(** Three bytes sent under a content length of ten. *)
Lemma DoRequestWith_request_witness :
  exists req,
    sent (snd (DoRequestWith DefaultClient Background "PUT" "http://x/y" None
                 (Some (list_byte_of_string "abc")) 10 initial)) = [req]
    /\ URL req = "http://x/y" /\ ReqBody req = Some (list_byte_of_string "abc")
    /\ ReqContentLength req = 10 /\ Method req = "PUT".
Proof.
  eexists. split; [computed|].
  eapply (DoRequestWith_request DefaultClient Background "PUT" "http://x/y" None
            (Some (list_byte_of_string "abc")) 10 initial).
  computed.
Defined.

(** Credentials whose token is made of the method. *)
Lemma DoRequestWith_authorization_witness :
  exists req,
    sent (snd (DoRequestWith DefaultClient signed "PUT" "http://x/y" None None 0 initial)) = [req]
    /\ ReqHeader req !! "Authorization" = Some ["QBox token-PUT"].
Proof.
  eexists. split; [computed|].
  match goal with
  | |- ReqHeader ?req !! _ = _ =>
      assert (Hsent : sent (snd (DoRequestWith DefaultClient signed "PUT" "http://x/y" None None 0
                                   initial)) = sent initial ++ [req]) by computed
  end.
  apply DoRequestWith_authorization in Hsent.
  unfold signed in Hsent. cbn [credentials] in Hsent.
  destruct Hsent as (token & Hsign & Hheader).
  vm_compute in Hsign. injection Hsign as <-. exact Hheader.
Defined.

(** A payload that marshals, and one that does not. *)
Lemma DoRequestWithJson_request_witness :
  (exists req,
     sent (snd (DoRequestWithJson (MP := model_Marshaler) DefaultClient Background "POST"
                  "http://x/y" None true initial)) = [req]
     /\ URL req = "http://x/y" /\ ReqBody req = Some (list_byte_of_string "true")
     /\ ReqContentLength req = 4
     /\ ReqHeader req !! "Content-Type" = Some ["application/json"])
  /\ DoRequestWithJson (MP := failing_Marshaler) DefaultClient Background "POST" "http://x/y"
       None tt initial = ((None, Some (Foreign "json: unsupported type: chan int")), initial).
Proof.
  split.
  - eexists. split; [computed|].
    pose proof (DoRequestWithJson_request (MP := model_Marshaler) DefaultClient Background
                  "POST" "http://x/y" None true initial) as Hjson.
    cbn [Marshal model_Marshaler] in Hjson. apply Hjson. computed.
  - exact (DoRequestWithJson_request (MP := failing_Marshaler) DefaultClient Background
             "POST" "http://x/y" None tt initial).
Defined.

(** A form call with an empty method. *)
Lemma DoRequestWithForm_method_witness :
  exists req,
    sent (snd (DoRequestWithForm DefaultClient Background "" "http://x/y" None form initial))
      = [req]
    /\ Method req = "GET" /\ URL req = "http://x/y"
    /\ ReqBody req = Some (list_byte_of_string "a=1").
Proof.
  eexists. split; [computed|].
  match goal with
  | |- Method ?req = _ /\ _ =>
      destruct (DoRequestWithForm_method DefaultClient Background "" "http://x/y" None form
                  initial req) as (Hm & Hbody); [computed|]
  end.
  specialize (Hbody eq_refl). destruct Hbody as (Hu & Hb).
  split; [exact Hm|]. split; [exact Hu | exact Hb].
Defined.

(** A name with a semicolon. *)
Lemma SetAppName_takes_any_name_witness :
  exists req',
    sent (snd (Do DefaultClient None get_request (snd (SetAppName "a;b" initial)))) = [req']
    /\ valid_userApp "a;b" = false
    /\ fst (SetAppName "a;b" initial) = None
    /\ ReqHeader req' !! "User-Agent" = Some ["QiniuGo/7.2.5 (linux; amd64; a;b) go1.12"].
Proof.
  eexists. split; [computed|]. split; [computed|].
  match goal with
  | |- _ /\ ReqHeader ?req !! _ = _ =>
      destruct (SetAppName_takes_any_name "a;b" DefaultClient None get_request req initial)
        as (Hnil & Hua & _); [computed | computed |]
  end.
  split; [exact Hnil | exact Hua].
Defined.

(** A call under the cancelled context. *)
Lemma Call_turned_down_when_cancelled_witness :
  turned_down (Some json.zero) initial
    (Call DefaultClient cancelled (Some json.zero) "GET" "http://x/y" None initial).
Proof.
  destruct (Call_turned_down_when_cancelled DefaultClient cancelled (Some json.zero) "GET"
              "http://x/y" None initial Canceled) as (_ & Hcall & _); [reflexivity|].
  exact Hcall.
Defined.

(** Credentials that cannot sign, under a context that is done. *)
Lemma CallWith_construction_error_witness :
  CallWith DefaultClient unsigned (Some json.zero) "GET" "http://x/y" None None 0 initial =
    (Returns (Some (Foreign "auth: cannot sign")), Some json.zero, initial).
Proof. apply CallWith_construction_error. computed. Defined.


End MoreRuns.
